(** * Text-to-SQL query engines (llama_index/indices/struct_store/sql_query.py)

    A shallow embedding of the SQL query engines: the extraction of a SQL
    statement from a model completion, the table context providers, the
    query orchestrator (synchronous and asynchronous) and the legacy
    engines, followed by the properties the specification states about
    them. *)

From Stdlib Require Import NArith Ascii String.
From stdpp Require Import base option list gmap.

Local Open Scope nat_scope.

(** ** Python strings

    A Python [str] is a sequence of Unicode code points.  The operations
    below are the ones the module uses: [find], slicing, [startswith],
    [strip], [replace], [join] and concatenation. *)

Module PyStr.

Abbreviation pychar := N (only parsing).
Abbreviation pystr := (list N) (only parsing).

(** A string literal of the source, as a [pystr]. *)
Definition py (s : string) : pystr :=
  List.map N_of_ascii (list_ascii_of_string s).

(** [s.startswith(sub)] *)
Fixpoint startswith (sub s : pystr) : bool :=
  match sub, s with
  | [], _ => true
  | _ :: _, [] => false
  | c :: sub', d :: s' => if N.eqb c d then startswith sub' s' else false
  end.

(** [s.find(sub)]: the lowest index at which [sub] occurs, [None] for -1. *)
Fixpoint find (sub s : pystr) : option nat :=
  if startswith sub s then Some 0
  else match s with
       | [] => None
       | _ :: s' => S <$> find sub s'
       end.

(** [s[i:]] and [s[:i]] for a non-negative [i]. *)
Definition slice_from (i : nat) (s : pystr) : pystr := drop i s.
Definition slice_to (i : nat) (s : pystr) : pystr := take i s.

(** [str.isspace] on one code point: the characters [str.strip()] removes. *)
Definition isspace (c : pychar) : bool :=
  ((9 <=? c) && (c <=? 13) || (28 <=? c) && (c <=? 32)
   || (c =? 133) || (c =? 160) || (c =? 5760)
   || (8192 <=? c) && (c <=? 8202)
   || (c =? 8232) || (c =? 8233) || (c =? 8239) || (c =? 8287)
   || (c =? 12288))%N.

Fixpoint lstrip_by (p : pychar -> bool) (s : pystr) : pystr :=
  match s with
  | [] => []
  | c :: s' => if p c then lstrip_by p s' else s
  end.

Definition rstrip_by (p : pychar -> bool) (s : pystr) : pystr :=
  rev (lstrip_by p (rev s)).

Definition strip_by (p : pychar -> bool) (s : pystr) : pystr :=
  rstrip_by p (lstrip_by p s).

(** [s.strip()] *)
Definition strip (s : pystr) : pystr := strip_by isspace s.

(** [c in chars] *)
Definition char_in (chars : pystr) (c : pychar) : bool :=
  existsb (N.eqb c) chars.

(** [s.strip(chars)]: the argument is a set of characters; every leading
    and trailing character that belongs to it is removed. *)
Definition strip_chars (chars s : pystr) : pystr := strip_by (char_in chars) s.

(** [sep.join(parts)] *)
Fixpoint join (sep : pystr) (parts : list pystr) : pystr :=
  match parts with
  | [] => []
  | [p] => p
  | p :: rest => p ++ sep ++ join sep rest
  end.

(** [s.replace(old, new)] for a non-empty [old]: a left-to-right scan that
    replaces each occurrence found and resumes after it ([skip] counts the
    characters of the occurrence still to pass over). *)
Fixpoint replace_scan (old new : pystr) (skip : nat) (s : pystr) : pystr :=
  match s with
  | [] => []
  | c :: s' =>
      match skip with
      | S k => replace_scan old new k s'
      | 0 =>
          if startswith old s
          then new ++ replace_scan old new (length old - 1) s'
          else c :: replace_scan old new 0 s'
      end
  end.

(** [s.replace(old, new)]; with an empty [old] Python inserts [new] before
    every character and at the end. *)
Definition replace (old new s : pystr) : pystr :=
  match old with
  | [] => new ++ flat_map (fun c => c :: new) s
  | _ :: _ => replace_scan old new 0 s
  end.

End PyStr.
Import PyStr.

(** ** Data model *)

(** A metadata value ([Any] in the source): a string, or some other object
    identified by a tag. *)
Inductive pyval :=
| VStr (s : pystr)
| VObj (id : N).

(** [Response]: the answer text, the source nodes and the metadata mapping
    ([Optional[Dict[str, Any]]]). *)
Module Response.
Record t := mk {
  response : option pystr;
  source_nodes : list pystr;
  metadata : option (gmap pystr pyval);
}.
End Response.

Record QueryBundle := { query_str : pystr }.

(** [SQLTableSchema]: a table name with an optional free-text description. *)
Record SQLTableSchema := {
  table_name : pystr;
  context_str : option pystr;
}.

(** [sqlalchemy.Table], of which the module reads the name only. *)
Record Table := { name : pystr }.

(** An entry of the [tables] argument: a [str], a [Table], or an object of
    any other type. *)
Inductive table_entry :=
| TStr (s : pystr)
| TTable (t : Table)
| TOther (id : N).

(** Modelled from the spec: [BasePromptTemplate] is imported from
    llama_index.prompts.  A template exposes the variable names it declares
    (a list, in order of appearance) and supports partial binding of a
    subset of its variables. *)
Record BasePromptTemplate := {
  template : pystr;
  template_vars : list pystr;
  kwargs : list (pystr * pystr);
}.

Definition partial_format (p : BasePromptTemplate) (bound : list (pystr * pystr))
  : BasePromptTemplate :=
  {| template := template p;
     template_vars := template_vars p;
     kwargs := kwargs p ++ bound |}.

(** Modelled from the spec: [PromptTemplate(tmpl)] declares the variables
    that occur in [tmpl]; they are given with the template text. *)
Definition PromptTemplate (tmpl : pystr) (vars : list pystr) : BasePromptTemplate :=
  {| template := tmpl; template_vars := vars; kwargs := [] |}.

(** ** Exceptions and effects *)

Inductive value_error :=
| UnknownTableType (table : table_entry)
    (* "Unknown table type: {table}" *)
| BadPromptVariables
    (* "response_synthesis_prompt must have the following template
       variables: query_str, sql_query, context_str" *)
| NoContextDict.
    (* "context_dict must be provided. There is currently no table context." *)

Inductive exception :=
| ValueError (v : value_error)
| AttributeError                (* attribute access on [None] *)
| CollaboratorError (code : N). (* raised by a collaborator, propagated unchanged *)

Inductive result (A : Type) :=
| Ok (a : A)
| Err (e : exception).
Arguments Ok {A} a.
Arguments Err {A} e.

#[global] Instance result_ret : MRet result := λ A a, Ok a.
#[global] Instance result_bind : MBind result := λ A B f r,
  match r with
  | Ok a => f a
  | Err e => Err e
  end.

(** The calls a query makes in its generation, execution and synthesis
    stages, in the order made: to the predictor, to the embedding model, to
    [run_sql] and to the synthesizer.  The schema look-ups of the context
    stage ([get_usable_table_names], [get_single_table_info], [retrieve])
    are read as functions and are not recorded. *)
Inductive event :=
| Predict (async : bool) (prompt : BasePromptTemplate) (bindings : list (pystr * pystr))
| GetQueryEmbedding (text : pystr)
| RunSql (sql : pystr)
| Synthesize (async : bool) (text_qa_template : BasePromptTemplate)
             (query : pystr) (nodes : list pystr).

(** A computation that calls collaborators: the calls made, and the value
    returned or the exception raised. *)
Definition M (A : Type) : Type := (list event * result A)%type.

#[global] Instance M_ret : MRet M := λ A a, ([], Ok a).
#[global] Instance M_bind : MBind M := λ A B f m,
  match m with
  | (t, Ok a) => let '(t', r) := f a in (t ++ t', r)
  | (t, Err e) => (t, Err e)
  end.

Definition call {A} (ev : event) (r : result A) : M A := ([ev], r).
Definition lift {A} (r : result A) : M A := ([], r).
Definition calls {A} (m : M A) : list event := fst m.
Definition outcome {A} (m : M A) : result A := snd m.

(** ** Collaborators *)

(** A number of an embedding vector, carried as the text [repr] gives it. *)
Record Float := { float_repr : pystr }.

(** [str(xs)] for a list of floats. *)
Definition str_of_floats (xs : list Float) : pystr :=
  py "[" ++ join (py ", ") (List.map float_repr xs) ++ py "]".

(** [SQLDatabase] (llama_index.utilities.sql_wrapper). *)
Record SQLDatabase := {
  dialect : pystr;
  get_usable_table_names : list pystr;
  get_single_table_info : pystr -> pystr;
  run_sql : pystr -> result (pystr * gmap pystr pyval);
}.

(** A response synthesizer: [synthesize(query, nodes)] and its asynchronous
    equivalent; [nodes] are given by their texts. *)
Record BaseSynthesizer := {
  synthesize : pystr -> list pystr -> result Response.t;
  asynthesize : pystr -> list pystr -> result Response.t;
}.

(** [ServiceContext]: the language-model predictor and the embedding model;
    [synthesizer_for] is the synthesizer the factory builds for this context
    and a question-answering template. *)
Record ServiceContext := {
  predict : BasePromptTemplate -> list (pystr * pystr) -> result pystr;
  apredict : BasePromptTemplate -> list (pystr * pystr) -> result pystr;
  get_query_embedding : pystr -> list Float;
  synthesizer_for : BasePromptTemplate -> BaseSynthesizer;
}.

(** Modelled from the spec: [get_response_synthesizer(service_context,
    callback_manager, text_qa_template)] is imported from
    llama_index.response_synthesizers; it returns a synthesizer. *)
Definition get_response_synthesizer (service_context : ServiceContext)
    (text_qa_template : BasePromptTemplate) : BaseSynthesizer :=
  synthesizer_for service_context text_qa_template.

(** [ObjectRetriever[SQLTableSchema]] *)
Record ObjectRetriever := {
  retrieve : QueryBundle -> list SQLTableSchema;
}.

(** [SQLContextContainer]: a context string, or a mapping of table names to
    descriptions (a [dict], in insertion order). *)
Record SQLContextContainer := {
  container_context_str : option pystr;
  context_dict : option (list (pystr * pystr));
}.

Record SQLStructStoreIndex := {
  sql_database : SQLDatabase;
  sql_context_container : SQLContextContainer;
  service_context : ServiceContext;
}.

(** ** Module constants *)

Definition DEFAULT_RESPONSE_SYNTHESIS_PROMPT_TMPL : pystr :=
  py "Given an input question, synthesize a response from the query results.
Query: {query_str}
SQL: {sql_query}
SQL Response: {sql_response_str}
Response: ".

Definition DEFAULT_RESPONSE_SYNTHESIS_PROMPT : BasePromptTemplate :=
  PromptTemplate DEFAULT_RESPONSE_SYNTHESIS_PROMPT_TMPL
    [py "query_str"; py "sql_query"; py "sql_response_str"].

Definition DEFAULT_RESPONSE_SYNTHESIS_PROMPT_TMPL_V2 : pystr :=
  py "Given an input question, synthesize a response from the query results.
Query: {query_str}
SQL: {sql_query}
SQL Response: {context_str}
Response: ".

Definition DEFAULT_RESPONSE_SYNTHESIS_PROMPT_V2 : BasePromptTemplate :=
  PromptTemplate DEFAULT_RESPONSE_SYNTHESIS_PROMPT_TMPL_V2
    [py "query_str"; py "sql_query"; py "context_str"].

(** [d.update(other)] on the metadata of a response: the entries of [other]
    replace those of [d] with the same key.  On [None] the attribute access
    fails. *)
Definition metadata_update (d : option (gmap pystr pyval)) (other : gmap pystr pyval)
  : result (gmap pystr pyval) :=
  match d with
  | Some d => Ok (other ∪ d)
  | None => Err AttributeError
  end.

(** [x or default] for an optional object that is truthy when present. *)
Definition or_default {A} (x : option A) (d : A) : A :=
  match x with
  | Some a => a
  | None => d
  end.

(** The separator of the context block, "\n\n". *)
Definition blank_line : pystr := [10; 10]%N.

(** The annotation phrase shared by the context providers. *)
Definition table_description_phrase : pystr := py " The table description is: ".

(** ** SQLStructStoreQueryEngine: raw SQL, no model call *)

Module SQLStructStoreQueryEngine.

Record t := {
  _sql_database : SQLDatabase;
  _sql_context_container : SQLContextContainer;
}.

Definition __init__ (index : SQLStructStoreIndex) :
    option SQLContextContainer -> t :=
  let index_container := sql_context_container index in
  fun sql_context_container =>
    {| _sql_database := sql_database index;
       _sql_context_container :=
         or_default sql_context_container index_container |}.

Definition _query (self : t) (query_bundle : QueryBundle) : M Response.t :=
  '(response_str, metadata) ←
    call (RunSql (query_str query_bundle))
         (run_sql (_sql_database self) (query_str query_bundle));
  mret (Response.mk (Some response_str) [] (Some metadata)).

Definition _aquery (self : t) (query_bundle : QueryBundle) : M Response.t :=
  _query self query_bundle.

End SQLStructStoreQueryEngine.

(** ** NLStructStoreQueryEngine: the legacy natural-language engine *)

Module NLStructStoreQueryEngine.

Record t := {
  _sql_database : SQLDatabase;
  _sql_context_container : SQLContextContainer;
  _service_context : ServiceContext;
  _text_to_sql_prompt : BasePromptTemplate;
  _response_synthesis_prompt : BasePromptTemplate;
  _context_query_kwargs : gmap pystr pystr;
  _synthesize_response : bool;
}.

Section Init.
(** [DEFAULT_TEXT_TO_SQL_PROMPT] of llama_index.prompts.default_prompts. *)
Variable DEFAULT_TEXT_TO_SQL_PROMPT : BasePromptTemplate.

Definition __init__ (index : SQLStructStoreIndex)
    (text_to_sql_prompt : option BasePromptTemplate)
    (context_query_kwargs : option (gmap pystr pystr))
    (synthesize_response : bool)
    (response_synthesis_prompt : option BasePromptTemplate) : t :=
  {| _sql_database := sql_database index;
     _sql_context_container := sql_context_container index;
     _service_context := service_context index;
     _text_to_sql_prompt :=
       or_default text_to_sql_prompt DEFAULT_TEXT_TO_SQL_PROMPT;
     _response_synthesis_prompt :=
       or_default response_synthesis_prompt DEFAULT_RESPONSE_SYNTHESIS_PROMPT;
     _context_query_kwargs := or_default context_query_kwargs ∅;
     _synthesize_response := synthesize_response |}.
End Init.

Definition _parse_response_to_sql (response : pystr) : pystr :=
  let sql_result_start := find (py "SQLResult:") response in
  let response :=
    match sql_result_start with
    | Some i => slice_to i response
    | None => response
    end in
  strip response.

Definition _get_table_context (self : t) (query_bundle : QueryBundle)
  : result pystr :=
  match container_context_str (_sql_context_container self) with
  | Some tables_desc_str => Ok tables_desc_str
  | None =>
      match context_dict (_sql_context_container self) with
      | None => Err (ValueError NoContextDict)
      | Some context_dict =>
          let table_desc_list := List.map snd context_dict in
          Ok (join blank_line table_desc_list)
      end
  end.

Definition _query (self : t) (query_bundle : QueryBundle) : M Response.t :=
  table_desc_str ← lift (_get_table_context self query_bundle);
  let bindings :=
    [(py "query_str", query_str query_bundle);
     (py "schema", table_desc_str);
     (py "dialect", dialect (_sql_database self))] in
  response_str ←
    call (Predict false (_text_to_sql_prompt self) bindings)
         (predict (_service_context self) (_text_to_sql_prompt self) bindings);
  let sql_query_str := _parse_response_to_sql response_str in
  '(raw_response_str, metadata) ←
    call (RunSql sql_query_str) (run_sql (_sql_database self) sql_query_str);
  let metadata := <[py "sql_query" := VStr sql_query_str]> metadata in
  if _synthesize_response self then
    let bindings :=
      [(py "query_str", query_str query_bundle);
       (py "sql_query", sql_query_str);
       (py "sql_response_str", raw_response_str)] in
    response_str ←
      call (Predict false (_response_synthesis_prompt self) bindings)
           (predict (_service_context self) (_response_synthesis_prompt self)
                    bindings);
    mret (Response.mk (Some response_str) [] (Some metadata))
  else
    let response_str := raw_response_str in
    mret (Response.mk (Some response_str) [] (Some metadata)).

Definition _aquery (self : t) (query_bundle : QueryBundle) : M Response.t :=
  table_desc_str ← lift (_get_table_context self query_bundle);
  let bindings :=
    [(py "query_str", query_str query_bundle);
     (py "schema", table_desc_str);
     (py "dialect", dialect (_sql_database self))] in
  response_str ←
    call (Predict true (_text_to_sql_prompt self) bindings)
         (apredict (_service_context self) (_text_to_sql_prompt self) bindings);
  let sql_query_str := _parse_response_to_sql response_str in
  '(response_str, metadata) ←
    call (RunSql sql_query_str) (run_sql (_sql_database self) sql_query_str);
  let metadata := <[py "sql_query" := VStr sql_query_str]> metadata in
  mret (Response.mk (Some response_str) [] (Some metadata)).

End NLStructStoreQueryEngine.

(** [_validate_prompt]: the template variables are compared with those of
    the default synthesis prompt. *)
Definition _validate_prompt (response_synthesis_prompt : BasePromptTemplate)
  : result unit :=
  if bool_decide (template_vars response_synthesis_prompt
                  ≠ template_vars DEFAULT_RESPONSE_SYNTHESIS_PROMPT_V2)
  then Err (ValueError BadPromptVariables)
  else Ok tt.

(** ** BaseSQLTableQueryEngine: the query orchestrator *)

Module BaseSQLTableQueryEngine.

Record t := {
  _sql_database : SQLDatabase;
  _service_context : ServiceContext;
  _text_to_sql_prompt : BasePromptTemplate;
  _response_synthesis_prompt : BasePromptTemplate;
  _context_query_kwargs : gmap pystr pystr;
  _synthesize_response : bool;
}.

Section Init.
(** [DEFAULT_TEXT_TO_SQL_PROMPT] of llama_index.prompts.default_prompts
    and the result of [ServiceContext.from_defaults()]. *)
Variable DEFAULT_TEXT_TO_SQL_PROMPT : BasePromptTemplate.
Variable ServiceContext_from_defaults : ServiceContext.

Definition __init__ (sql_database : SQLDatabase)
    (text_to_sql_prompt : option BasePromptTemplate)
    (context_query_kwargs : option (gmap pystr pystr))
    (synthesize_response : bool)
    (response_synthesis_prompt : option BasePromptTemplate)
    (service_context : option ServiceContext) : result t :=
  let _sql_database := sql_database in
  let _service_context :=
    or_default service_context ServiceContext_from_defaults in
  let _text_to_sql_prompt :=
    or_default text_to_sql_prompt DEFAULT_TEXT_TO_SQL_PROMPT in
  let _response_synthesis_prompt :=
    or_default response_synthesis_prompt DEFAULT_RESPONSE_SYNTHESIS_PROMPT_V2 in
  (* do some basic prompt validation *)
  _ ← _validate_prompt _response_synthesis_prompt;
  mret {| _sql_database := _sql_database;
          _service_context := _service_context;
          _text_to_sql_prompt := _text_to_sql_prompt;
          _response_synthesis_prompt := _response_synthesis_prompt;
          _context_query_kwargs := or_default context_query_kwargs ∅;
          _synthesize_response := synthesize_response |}.
End Init.

Definition _parse_response_to_sql (response : pystr) (query_bundle : QueryBundle)
  : pystr :=
  let sql_query_start := find (py "SQLQuery:") response in
  let response :=
    match sql_query_start with
    | Some i =>
        let response := slice_from i response in
        if startswith (py "SQLQuery:") response
        then slice_from (length (py "SQLQuery:")) response
        else response
    | None => response
    end in
  let sql_result_start := find (py "SQLResult:") response in
  let response :=
    match sql_result_start with
    | Some i => slice_to i response
    | None => response
    end in
  strip (strip_chars (py "```") (strip response)).

End BaseSQLTableQueryEngine.

Module Base := BaseSQLTableQueryEngine.

(** The interface of the orchestrator's subclasses: the state of the base
    class, the abstract [_get_table_context] and the overridable
    [_parse_response_to_sql]. *)
Class SQLTableQueryEngine (E : Type) := {
  super : E -> BaseSQLTableQueryEngine.t;
  _get_table_context : E -> QueryBundle -> result pystr;
  _parse_response_to_sql : E -> pystr -> QueryBundle -> M pystr;
}.

Section Orchestrator.
Context {E : Type} `{!SQLTableQueryEngine E}.

Definition _query (self : E) (query_bundle : QueryBundle) : M Response.t :=
  table_desc_str ← lift (_get_table_context self query_bundle);
  let bindings :=
    [(py "query_str", query_str query_bundle);
     (py "schema", table_desc_str);
     (py "dialect", dialect (Base._sql_database (super self)))] in
  response_str ←
    call (Predict false (Base._text_to_sql_prompt (super self)) bindings)
         (predict (Base._service_context (super self))
                  (Base._text_to_sql_prompt (super self)) bindings);
  sql_query_str ← _parse_response_to_sql self response_str query_bundle;
  '(raw_response_str, metadata) ←
    call (RunSql sql_query_str)
         (run_sql (Base._sql_database (super self)) sql_query_str);
  let metadata := <[py "sql_query" := VStr sql_query_str]> metadata in
  if Base._synthesize_response (super self) then
    let partial_synthesis_prompt :=
      partial_format (Base._response_synthesis_prompt (super self))
                     [(py "sql_query", sql_query_str)] in
    let response_synthesizer :=
      get_response_synthesizer (Base._service_context (super self))
                               partial_synthesis_prompt in
    response ←
      call (Synthesize false partial_synthesis_prompt
                       (query_str query_bundle) [raw_response_str])
           (synthesize response_synthesizer
                       (query_str query_bundle) [raw_response_str]);
    merged ← lift (metadata_update (Response.metadata response) metadata);
    mret (Response.mk (Response.response response)
                      (Response.source_nodes response) (Some merged))
  else
    let response_str := raw_response_str in
    mret (Response.mk (Some response_str) [] (Some metadata)).

Definition _aquery (self : E) (query_bundle : QueryBundle) : M Response.t :=
  table_desc_str ← lift (_get_table_context self query_bundle);
  let bindings :=
    [(py "query_str", query_str query_bundle);
     (py "schema", table_desc_str);
     (py "dialect", dialect (Base._sql_database (super self)))] in
  response_str ←
    call (Predict true (Base._text_to_sql_prompt (super self)) bindings)
         (apredict (Base._service_context (super self))
                   (Base._text_to_sql_prompt (super self)) bindings);
  sql_query_str ← _parse_response_to_sql self response_str query_bundle;
  '(raw_response_str, metadata) ←
    call (RunSql sql_query_str)
         (run_sql (Base._sql_database (super self)) sql_query_str);
  let metadata := <[py "sql_query" := VStr sql_query_str]> metadata in
  if Base._synthesize_response (super self) then
    let partial_synthesis_prompt :=
      partial_format (Base._response_synthesis_prompt (super self))
                     [(py "sql_query", sql_query_str)] in
    let response_synthesizer :=
      get_response_synthesizer (Base._service_context (super self))
                               partial_synthesis_prompt in
    response ←
      call (Synthesize true partial_synthesis_prompt
                       (query_str query_bundle) [raw_response_str])
           (asynthesize response_synthesizer
                        (query_str query_bundle) [raw_response_str]);
    merged ← lift (metadata_update (Response.metadata response) metadata);
    mret (Response.mk (Response.response response)
                      (Response.source_nodes response) (Some merged))
  else
    let response_str := raw_response_str in
    mret (Response.mk (Some response_str) [] (Some metadata)).

End Orchestrator.

(** ** NLSQLTableQueryEngine: fixed table list, or all tables *)

Module NLSQLTableQueryEngine.

Record t := {
  base : BaseSQLTableQueryEngine.t;
  _tables : option (list table_entry);
}.

Section Init.
Variable DEFAULT_TEXT_TO_SQL_PROMPT : BasePromptTemplate.
Variable ServiceContext_from_defaults : ServiceContext.

Definition __init__ (sql_database : SQLDatabase)
    (text_to_sql_prompt : option BasePromptTemplate)
    (context_query_kwargs : option (gmap pystr pystr))
    (synthesize_response : bool)
    (response_synthesis_prompt : option BasePromptTemplate)
    (tables : option (list table_entry))
    (service_context : option ServiceContext) : result t :=
  let _tables := tables in
  base ← Base.__init__ DEFAULT_TEXT_TO_SQL_PROMPT ServiceContext_from_defaults
           sql_database text_to_sql_prompt context_query_kwargs
           synthesize_response response_synthesis_prompt service_context;
  mret {| base := base; _tables := _tables |}.
End Init.

(** The description of one table: its structural description, followed by
    the caller's annotation when the mapping has one for this name. *)
Definition table_info_with_context (sql_database : SQLDatabase)
    (context_query_kwargs : gmap pystr pystr) (table_str : pystr) : pystr :=
  let table_info := get_single_table_info sql_database table_str in
  match context_query_kwargs !! table_str with
  | Some description =>
      let table_opt_context := table_description_phrase in
      let table_opt_context := table_opt_context ++ description in
      table_info ++ table_opt_context
  | None => table_info
  end.

(** The loop over [self._tables]; [context_strs] is the list built so far. *)
Fixpoint tables_loop (self : t) (tables : list table_entry)
    (context_strs : list pystr) : result (list pystr) :=
  match tables with
  | [] => Ok context_strs
  | table :: rest =>
      (* if isinstance(table, Table): table_str = str(table.name) *)
      let table_str :=
        match table with
        | TTable tbl => Some (name tbl)
        | _ => None
        end in
      (* if isinstance(table, str): table_str = table
         else: raise ValueError *)
      table_str ←
        match table with
        | TStr s => Ok s
        | _ => Err (ValueError (UnknownTableType table))
        end;
      let table_info :=
        table_info_with_context (Base._sql_database (base self))
          (Base._context_query_kwargs (base self)) table_str in
      tables_loop self rest (context_strs ++ [table_info])
  end.

(** The loop over the usable table names of the database. *)
Fixpoint table_names_loop (self : t) (table_names : list pystr)
    (context_strs : list pystr) : list pystr :=
  match table_names with
  | [] => context_strs
  | table_name :: rest =>
      let table_info :=
        table_info_with_context (Base._sql_database (base self))
          (Base._context_query_kwargs (base self)) table_name in
      table_names_loop self rest (context_strs ++ [table_info])
  end.

(** [if self._tables:] holds for a non-empty list. *)
Definition truthy_tables (tables : option (list table_entry)) : bool :=
  match tables with
  | Some (_ :: _) => true
  | _ => false
  end.

Definition _get_table_context (self : t) (query_bundle : QueryBundle)
  : result pystr :=
  let context_strs := [] in
  context_strs ←
    (if truthy_tables (_tables self) then
       tables_loop self (or_default (_tables self) []) context_strs
     else
       (* get all tables *)
       let table_names :=
         get_usable_table_names (Base._sql_database (base self)) in
       Ok (table_names_loop self table_names context_strs));
  mret (join blank_line context_strs).

#[global] Instance engine : SQLTableQueryEngine t :=
  Build_SQLTableQueryEngine t base _get_table_context
    (λ _ response query_bundle,
       mret (Base._parse_response_to_sql response query_bundle)).

End NLSQLTableQueryEngine.

(** ** PGVectorSQLQueryEngine: placeholders for the query embedding *)

Module PGVectorSQLQueryEngine.

Record t := { nlsql : NLSQLTableQueryEngine.t }.

Section Init.
Variable DEFAULT_TEXT_TO_SQL_PROMPT : BasePromptTemplate.
Variable DEFAULT_TEXT_TO_SQL_PGVECTOR_PROMPT : BasePromptTemplate.
Variable ServiceContext_from_defaults : ServiceContext.

Definition __init__ (sql_database : SQLDatabase)
    (text_to_sql_prompt : option BasePromptTemplate)
    (context_query_kwargs : option (gmap pystr pystr))
    (synthesize_response : bool)
    (response_synthesis_prompt : option BasePromptTemplate)
    (tables : option (list table_entry))
    (service_context : option ServiceContext) : result t :=
  let _tables := tables in
  let text_to_sql_prompt :=
    Some (or_default text_to_sql_prompt DEFAULT_TEXT_TO_SQL_PGVECTOR_PROMPT) in
  (* [tables] is not handed on: the constructor of the parent class runs
     with its default, [None], and assigns [self._tables] again *)
  nlsql ← NLSQLTableQueryEngine.__init__
            DEFAULT_TEXT_TO_SQL_PROMPT ServiceContext_from_defaults
            sql_database text_to_sql_prompt context_query_kwargs
            synthesize_response response_synthesis_prompt None
            service_context;
  mret {| nlsql := nlsql |}.
End Init.

Definition _parse_response_to_sql (self : t) (response : pystr)
    (query_bundle : QueryBundle) : M pystr :=
  let sql_query_start := find (py "SQLQuery:") response in
  let response :=
    match sql_query_start with
    | Some i =>
        let response := slice_from i response in
        if startswith (py "SQLQuery:") response
        then slice_from (length (py "SQLQuery:")) response
        else response
    | None => response
    end in
  let sql_result_start := find (py "SQLResult:") response in
  let response :=
    match sql_result_start with
    | Some i => slice_to i response
    | None => response
    end in
  (* this gets you the sql string with [query_vector] placeholders *)
  let raw_sql_str := strip (strip_chars (py "```") (strip response)) in
  query_embedding ←
    call (GetQueryEmbedding (query_str query_bundle))
         (Ok (get_query_embedding
                (Base._service_context (NLSQLTableQueryEngine.base (nlsql self)))
                (query_str query_bundle)));
  let query_embedding_str := str_of_floats query_embedding in
  mret (replace (py "[query_vector]") query_embedding_str raw_sql_str).

#[global] Instance engine : SQLTableQueryEngine t :=
  Build_SQLTableQueryEngine t
    (λ self, NLSQLTableQueryEngine.base (nlsql self))
    (λ self, NLSQLTableQueryEngine._get_table_context (nlsql self))
    _parse_response_to_sql.

End PGVectorSQLQueryEngine.

(** ** SQLTableRetrieverQueryEngine: tables selected by a retriever *)

Module SQLTableRetrieverQueryEngine.

Record t := {
  base : BaseSQLTableQueryEngine.t;
  _table_retriever : ObjectRetriever;
  _context_str_prefix : option pystr;
}.

Section Init.
Variable DEFAULT_TEXT_TO_SQL_PROMPT : BasePromptTemplate.
Variable ServiceContext_from_defaults : ServiceContext.

Definition __init__ (sql_database : SQLDatabase)
    (table_retriever : ObjectRetriever)
    (text_to_sql_prompt : option BasePromptTemplate)
    (context_query_kwargs : option (gmap pystr pystr))
    (synthesize_response : bool)
    (response_synthesis_prompt : option BasePromptTemplate)
    (service_context : option ServiceContext)
    (context_str_prefix : option pystr) : result t :=
  let _table_retriever := table_retriever in
  let _context_str_prefix := context_str_prefix in
  base ← Base.__init__ DEFAULT_TEXT_TO_SQL_PROMPT ServiceContext_from_defaults
           sql_database text_to_sql_prompt context_query_kwargs
           synthesize_response response_synthesis_prompt service_context;
  mret {| base := base;
          _table_retriever := _table_retriever;
          _context_str_prefix := _context_str_prefix |}.
End Init.

(** [if table_schema_obj.context_str:] holds for a non-empty string. *)
Definition truthy_str (s : option pystr) : option pystr :=
  match s with
  | Some (c :: s') => Some (c :: s')
  | _ => None
  end.

Fixpoint schema_loop (self : t) (table_schema_objs : list SQLTableSchema)
    (context_strs : list pystr) : list pystr :=
  match table_schema_objs with
  | [] => context_strs
  | table_schema_obj :: rest =>
      let table_info :=
        get_single_table_info (Base._sql_database (base self))
                              (table_name table_schema_obj) in
      let table_info :=
        match truthy_str (context_str table_schema_obj) with
        | Some description =>
            let table_opt_context := table_description_phrase in
            let table_opt_context := table_opt_context ++ description in
            table_info ++ table_opt_context
        | None => table_info
        end in
      schema_loop self rest (context_strs ++ [table_info])
  end.

Definition _get_table_context (self : t) (query_bundle : QueryBundle)
  : result pystr :=
  let context_strs := [] in
  let context_strs :=
    match _context_str_prefix self with
    | Some prefix => [prefix]
    | None => context_strs
    end in
  let table_schema_objs := retrieve (_table_retriever self) query_bundle in
  let context_strs := schema_loop self table_schema_objs context_strs in
  Ok (join blank_line context_strs).

#[global] Instance engine : SQLTableQueryEngine t :=
  Build_SQLTableQueryEngine t base _get_table_context
    (λ _ response query_bundle,
       mret (Base._parse_response_to_sql response query_bundle)).

End SQLTableRetrieverQueryEngine.

(** ** The extraction as the specification words it

    Locate the first "SQLQuery:" and drop everything up to and including
    it; locate the first "SQLResult:" and drop everything from it on; trim,
    strip leading and trailing triple-backtick fence markers, trim again. *)

Module Spec.

Definition fence : pystr := py "```".

(** Leading fence markers, three backticks at a time. *)
Fixpoint lstrip_fences (s : pystr) : pystr :=
  match s with
  | _ :: _ :: _ :: s' => if startswith fence s then lstrip_fences s' else s
  | _ => s
  end.

Definition rstrip_fences (s : pystr) : pystr := rev (lstrip_fences (rev s)).

Definition strip_fences (s : pystr) : pystr := rstrip_fences (lstrip_fences s).

Definition extract_sql (model_completion : pystr) : pystr :=
  let s :=
    match find (py "SQLQuery:") model_completion with
    | Some i => slice_from (i + length (py "SQLQuery:")) model_completion
    | None => model_completion
    end in
  let s :=
    match find (py "SQLResult:") s with
    | Some j => slice_to j s
    | None => s
    end in
  strip (strip_fences (strip s)).

(** The fixed-list context provider as the specification words it: each
    table identifier, a name or a table reference, is normalized to a name;
    anything else is a validation error. *)
Definition table_name_of (entry : table_entry) : result pystr :=
  match entry with
  | TStr s => Ok s
  | TTable tbl => Ok (name tbl)
  | TOther _ => Err (ValueError (UnknownTableType entry))
  end.

Fixpoint table_names_of (tables : list table_entry) : result (list pystr) :=
  match tables with
  | [] => Ok []
  | entry :: rest =>
      table ← table_name_of entry;
      names ← table_names_of rest;
      mret (table :: names)
  end.

(** For each name, the structural description with the caller's annotation
    if there is one; the results joined with a blank line between them. *)
Definition fixed_list_context (sql_database : SQLDatabase)
    (context_query_kwargs : gmap pystr pystr) (tables : list table_entry)
  : result pystr :=
  names ← table_names_of tables;
  mret (join blank_line
          (NLSQLTableQueryEngine.table_info_with_context sql_database
             context_query_kwargs <$> names)).

End Spec.

(** ** Completed runs of the orchestrator

    The shape of a run in which every stage returned: which collaborator
    answers it rests on, the calls it made and the response it built. *)

Section Runs.
Context {E : Type} `{!SQLTableQueryEngine E}.
Implicit Types (self : E) (query_bundle : QueryBundle).

(** The arguments of the text-to-SQL call. *)
Definition text_to_sql_bindings self query_bundle (table_desc_str : pystr)
  : list (pystr * pystr) :=
  [(py "query_str", query_str query_bundle);
   (py "schema", table_desc_str);
   (py "dialect", dialect (Base._sql_database (super self)))].

(** The template handed to the synthesizer for a statement. *)
Definition synthesis_prompt self (sql : pystr) : BasePromptTemplate :=
  partial_format (Base._response_synthesis_prompt (super self))
                 [(py "sql_query", sql)].

(** The first three stages ran to completion: context, generation (with
    the extraction making the calls [pre]) and execution. *)
Definition stages_done (async : bool) self query_bundle
    (table_desc_str response_str : pystr) (pre : list event)
    (sql raw : pystr) (emd : gmap pystr pyval) : Prop :=
  _get_table_context self query_bundle = Ok table_desc_str
  ∧ (if async then apredict else predict)
      (Base._service_context (super self))
      (Base._text_to_sql_prompt (super self))
      (text_to_sql_bindings self query_bundle table_desc_str)
    = Ok response_str
  ∧ _parse_response_to_sql self response_str query_bundle = (pre, Ok sql)
  ∧ run_sql (Base._sql_database (super self)) sql = Ok (raw, emd).

(** What a completed run looks like: the calls made and the response. *)
Definition completed (async : bool) self query_bundle
    (tr : list event) (resp : Response.t) : Prop :=
  ∃ table_desc_str response_str pre sql raw emd,
    stages_done async self query_bundle table_desc_str response_str pre sql raw emd
    ∧ let generation :=
        Predict async (Base._text_to_sql_prompt (super self))
                (text_to_sql_bindings self query_bundle table_desc_str) in
      let executed := <[py "sql_query" := VStr sql]> emd in
      if Base._synthesize_response (super self) then
        ∃ r smd,
          (if async then asynthesize else synthesize)
            (get_response_synthesizer (Base._service_context (super self))
                                      (synthesis_prompt self sql))
            (query_str query_bundle) [raw] = Ok r
          ∧ Response.metadata r = Some smd
          ∧ resp = Response.mk (Response.response r) (Response.source_nodes r)
                               (Some (executed ∪ smd))
          ∧ tr = generation :: pre
                 ++ [RunSql sql;
                     Synthesize async (synthesis_prompt self sql)
                                (query_str query_bundle) [raw]]
      else
        resp = Response.mk (Some raw) [] (Some executed)
        ∧ tr = generation :: pre ++ [RunSql sql].

End Runs.

(** A query through either path of the orchestrator. *)
Definition run_query {E : Type} `{!SQLTableQueryEngine E} (async : bool)
    (self : E) (query_bundle : QueryBundle) : M Response.t :=
  if async then _aquery self query_bundle else _query self query_bundle.

(** Every constructor of the orchestrator and of its subclasses rejects the
    synthesis prompt [p], whatever the other arguments are. *)
Definition construction_fails (p : BasePromptTemplate) : Prop :=
  ∀ (default_prompt pgvector_prompt : BasePromptTemplate)
    (default_context : ServiceContext) (sql_database : SQLDatabase)
    (text_to_sql_prompt : option BasePromptTemplate)
    (context_query_kwargs : option (gmap pystr pystr))
    (synthesize_response : bool) (service_context : option ServiceContext)
    (tables : option (list table_entry)) (table_retriever : ObjectRetriever)
    (context_str_prefix : option pystr),
    Base.__init__ default_prompt default_context sql_database
      text_to_sql_prompt context_query_kwargs synthesize_response (Some p)
      service_context
    = Err (ValueError BadPromptVariables)
    ∧ NLSQLTableQueryEngine.__init__ default_prompt default_context sql_database
        text_to_sql_prompt context_query_kwargs synthesize_response (Some p)
        tables service_context
      = Err (ValueError BadPromptVariables)
    ∧ PGVectorSQLQueryEngine.__init__ default_prompt pgvector_prompt
        default_context sql_database text_to_sql_prompt context_query_kwargs
        synthesize_response (Some p) tables service_context
      = Err (ValueError BadPromptVariables)
    ∧ SQLTableRetrieverQueryEngine.__init__ default_prompt default_context
        sql_database table_retriever text_to_sql_prompt context_query_kwargs
        synthesize_response (Some p) service_context context_str_prefix
      = Err (ValueError BadPromptVariables).

(** The stage a call belongs to. *)
Inductive stage :=
| Generation
| Embedding
| Execution
| Synthesis.

Definition stage_of (ev : event) : stage :=
  match ev with
  | Predict _ _ _ => Generation
  | GetQueryEmbedding _ => Embedding
  | RunSql _ => Execution
  | Synthesize _ _ _ _ => Synthesis
  end.

(** ** A small concrete deployment

    One database with two tables, a model that answers the question about
    [orders], and a synthesizer that rewords the result.  The closed
    instances of the properties below are stated on it. *)

Module Example.

Definition question : QueryBundle :=
  {| query_str := py "How many rows in orders?" |}.

Definition completion : pystr :=
  py "SQLQuery: SELECT COUNT(*) FROM orders SQLResult: 5".

Definition statement : pystr := py "SELECT COUNT(*) FROM orders".

Definition database : SQLDatabase :=
  {| dialect := py "sqlite";
     get_usable_table_names := [py "orders"; py "customers"];
     get_single_table_info := λ table, py "Table " ++ table ++ py " has columns: id (INTEGER)";
     run_sql := λ sql, Ok (py "[(5,)]", {[ py "result" := VObj 1 ]}) |}.

(** The predictor: a statement for the text-to-SQL prompt (the one bound
    with a schema), a sentence for anything else. *)
Definition has_binding (key : pystr) (bindings : list (pystr * pystr)) : bool :=
  existsb (λ kv, bool_decide (kv.1 = key)) bindings.

Definition predictor (prompt : BasePromptTemplate)
    (bindings : list (pystr * pystr)) : result pystr :=
  if has_binding (py "schema") bindings
  then Ok completion
  else Ok (py "There are 5 orders.").

Definition synthesizer : BaseSynthesizer :=
  let answer query nodes :=
    Ok (Response.mk (Some (py "There are 5 orders.")) nodes
          (Some {[ py "sql_query" := VStr (py "SELECT 0");
                   py "node-1" := VObj 7 ]})) in
  {| synthesize := answer; asynthesize := answer |}.

Definition context : ServiceContext :=
  {| predict := predictor;
     apredict := predictor;
     get_query_embedding := λ _, [ {| float_repr := py "0.1" |};
                                   {| float_repr := py "0.25" |} ];
     synthesizer_for := λ _, synthesizer |}.

Definition text_to_sql_prompt : BasePromptTemplate :=
  PromptTemplate (py "Dialect: {dialect}. Schema: {schema}. Question: {query_str}")
                 [py "dialect"; py "schema"; py "query_str"].

Definition base_engine (synthesize_response : bool) : BaseSQLTableQueryEngine.t :=
  {| Base._sql_database := database;
     Base._service_context := context;
     Base._text_to_sql_prompt := text_to_sql_prompt;
     Base._response_synthesis_prompt := DEFAULT_RESPONSE_SYNTHESIS_PROMPT_V2;
     Base._context_query_kwargs := {[ py "orders" := py "one row per order" ]};
     Base._synthesize_response := synthesize_response |}.

Definition nl_engine (synthesize_response : bool)
    (tables : option (list table_entry)) : NLSQLTableQueryEngine.t :=
  {| NLSQLTableQueryEngine.base := base_engine synthesize_response;
     NLSQLTableQueryEngine._tables := tables |}.

Definition pgvector_engine : PGVectorSQLQueryEngine.t :=
  {| PGVectorSQLQueryEngine.nlsql := nl_engine false None |}.

Definition empty_retriever : ObjectRetriever := {| retrieve := λ _, [] |}.

Definition retriever_engine : SQLTableRetrieverQueryEngine.t :=
  {| SQLTableRetrieverQueryEngine.base := base_engine false;
     SQLTableRetrieverQueryEngine._table_retriever := empty_retriever;
     SQLTableRetrieverQueryEngine._context_str_prefix := None |}.

Definition index : SQLStructStoreIndex :=
  {| sql_database := database;
     sql_context_container :=
       {| container_context_str := None;
          context_dict := Some [(py "orders", py "Table orders has columns: id")] |};
     service_context := context |}.

Definition legacy_engine (synthesize_response : bool) : NLStructStoreQueryEngine.t :=
  NLStructStoreQueryEngine.__init__ text_to_sql_prompt index None None
    synthesize_response None.

(** The responses the orchestrator is expected to build on [question]:
    the synthesizer's sentence with the merged metadata, and the raw
    result with the execution metadata. *)
Definition synthesized_answer : Response.t :=
  Response.mk (Some (py "There are 5 orders.")) [py "[(5,)]"]
    (Some {[ py "sql_query" := VStr statement;
             py "result" := VObj 1;
             py "node-1" := VObj 7 ]}).

Definition raw_answer : Response.t :=
  Response.mk (Some (py "[(5,)]")) []
    (Some {[ py "sql_query" := VStr statement; py "result" := VObj 1 ]}).

(** Collaborators that fail, and engines built on them. *)
Definition failing_predictor_context : ServiceContext :=
  {| predict := λ _ _, Err (CollaboratorError 1);
     apredict := λ _ _, Err (CollaboratorError 1);
     get_query_embedding := get_query_embedding context;
     synthesizer_for := synthesizer_for context |}.

Definition failing_database : SQLDatabase :=
  {| dialect := dialect database;
     get_usable_table_names := get_usable_table_names database;
     get_single_table_info := get_single_table_info database;
     run_sql := λ _, Err (CollaboratorError 2) |}.

Definition failing_synthesizer_context : ServiceContext :=
  {| predict := predictor;
     apredict := predictor;
     get_query_embedding := get_query_embedding context;
     synthesizer_for := λ _,
       {| synthesize := λ _ _, Err (CollaboratorError 3);
          asynthesize := λ _ _, Err (CollaboratorError 3) |} |}.

(** A synthesizer whose response has no metadata mapping. *)
Definition bare_synthesizer_context : ServiceContext :=
  {| predict := predictor;
     apredict := predictor;
     get_query_embedding := get_query_embedding context;
     synthesizer_for := λ _,
       let answer query nodes :=
         Ok (Response.mk (Some (py "There are 5 orders.")) nodes None) in
       {| synthesize := answer; asynthesize := answer |} |}.

Definition engine_on (db : SQLDatabase) (llm : ServiceContext)
    (synthesize_response : bool) (tables : option (list table_entry))
  : NLSQLTableQueryEngine.t :=
  {| NLSQLTableQueryEngine.base :=
       {| Base._sql_database := db;
          Base._service_context := llm;
          Base._text_to_sql_prompt := text_to_sql_prompt;
          Base._response_synthesis_prompt := DEFAULT_RESPONSE_SYNTHESIS_PROMPT_V2;
          Base._context_query_kwargs := ∅;
          Base._synthesize_response := synthesize_response |};
     NLSQLTableQueryEngine._tables := tables |}.

(** A legacy engine whose index has neither a context string nor a
    context dictionary. *)
Definition legacy_engine_without_context : NLStructStoreQueryEngine.t :=
  NLStructStoreQueryEngine.__init__ text_to_sql_prompt
    {| sql_database := database;
       sql_context_container :=
         {| container_context_str := None; context_dict := None |};
       service_context := context |}
    None None true None.

End Example.

(** * Properties *)

(** ** Strings *)

Example find_first : find (py "ab") (py "xxabab") = Some 2.
Proof. reflexivity. Qed.

Example strip_is_a_character_set :
  strip_chars (py "```") (py "`a`b``") = py "a`b".
Proof. reflexivity. Qed.

Example replace_all : replace (py "ab") (py "X") (py "abcabab") = py "XcXX".
Proof. reflexivity. Qed.

Example join_three : join (py ", ") [py "a"; py "b"; py "c"] = py "a, b, c".
Proof. reflexivity. Qed.

Lemma startswith_prefix (sub s : pystr) :
  startswith sub s = true ↔ ∃ rest, s = sub ++ rest.
Proof.
  revert s. induction sub as [|c sub IH]; intros s; simpl.
  - split; [intros _; by exists s | done].
  - destruct s as [|d s]; [split; [done | intros [? ?]; done] |].
    destruct (N.eqb_spec c d) as [->|Hne].
    + rewrite IH. split; intros [rest Hr]; exists rest; simpl in *; congruence.
    + split; [done | intros [rest Hr]; simpl in Hr; congruence].
Qed.

Lemma startswith_app (sub rest : pystr) : startswith sub (sub ++ rest) = true.
Proof. apply startswith_prefix. by exists rest. Qed.

Lemma find_Some (sub s : pystr) (i : nat) :
  find sub s = Some i →
  startswith sub (drop i s) = true
  ∧ ∀ k, k < i → startswith sub (drop k s) = false.
Proof.
  revert i. induction s as [|c s IH]; intros i; simpl.
  - destruct (startswith sub []) eqn:Hs; [|done].
    intros [= <-]. split; [done | lia].
  - destruct (startswith sub (c :: s)) eqn:Hs.
    + intros [= <-]. split; [done | lia].
    + destruct (find sub s) as [j|] eqn:Hf; [|done].
      intros [= <-]. destruct (IH j eq_refl) as [H1 H2]. split; [done|].
      intros [|k] Hk; [done|]. simpl. apply H2. lia.
Qed.

Lemma find_None (sub s : pystr) :
  find sub s = None → ∀ k, startswith sub (drop k s) = false.
Proof.
  induction s as [|c s IH]; simpl.
  - destruct (startswith sub []) eqn:Hs; [done|].
    intros _ k. by rewrite drop_nil.
  - destruct (startswith sub (c :: s)) eqn:Hs; [done|].
    destruct (find sub s) eqn:Hf; [done|].
    intros _ [|k]; [done|]. simpl. by apply IH.
Qed.

(** An occurrence found by [find] splits the string around it. *)
Lemma find_Some_split (sub s : pystr) (i : nat) :
  find sub s = Some i →
  s = take i s ++ sub ++ drop (i + length sub) s.
Proof.
  intros Hf. destruct (find_Some _ _ _ Hf) as [Hs _].
  apply startswith_prefix in Hs as [rest Hr].
  rewrite <- (take_drop i s) at 1. f_equal.
  rewrite <- drop_drop, Hr.
  by rewrite drop_app_length.
Qed.

Lemma find_cons (sub : pystr) (x : pychar) (s : pystr) :
  find sub (x :: s)
  = if startswith sub (x :: s) then Some 0 else S <$> find sub s.
Proof. done. Qed.

Lemma find_None_intro (sub s : pystr) :
  (∀ k, startswith sub (drop k s) = false) → find sub s = None.
Proof.
  induction s as [|c s IH]; intros Hno.
  - pose proof (Hno 0) as H0. simpl in *. by rewrite H0.
  - pose proof (Hno 0) as H0. rewrite drop_0 in H0.
    rewrite find_cons, H0, IH; [done|].
    intros k. apply (Hno (S k)).
Qed.

(** Nothing occurs before the occurrence that [find] reports. *)
Lemma find_take_None (sub s : pystr) (i : nat) :
  sub ≠ [] → find sub s = Some i → find sub (take i s) = None.
Proof.
  intros Hsub Hf. destruct (find_Some _ _ _ Hf) as [_ Hmin].
  apply find_None_intro. intros k.
  destruct (startswith sub (drop k (take i s))) eqn:Hs; [|done].
  apply startswith_prefix in Hs as [rest Hrest].
  assert (Hlen : k < length (take i s)).
  { pose proof (f_equal length Hrest) as Hl.
    rewrite length_drop, length_app in Hl.
    destruct sub; [done|]. simpl in Hl. lia. }
  assert (Hk : k < i) by (rewrite length_take in Hlen; lia).
  rewrite <- (Hmin k Hk). symmetry. apply startswith_prefix.
  exists (rest ++ drop i s).
  rewrite <- (take_drop i s) at 1.
  rewrite drop_app_le by lia.
  by rewrite Hrest, <- app_assoc.
Qed.

(** ** SQL extraction *)

(** The part of the completion the orchestrator keeps when both labels are
    present: what lies between the end of the first "SQLQuery:" and the
    start of the first "SQLResult:" after it, passed through [strip],
    [strip("```")] and [strip]. *)
Lemma parse_response_between (response : pystr) (query_bundle : QueryBundle)
    (i j : nat) :
  find (py "SQLQuery:") response = Some i →
  find (py "SQLResult:") (drop (i + 9) response) = Some j →
  Base._parse_response_to_sql response query_bundle
  = strip (strip_chars (py "```") (strip (take j (drop (i + 9) response)))).
Proof.
  intros Hq Hr. unfold Base._parse_response_to_sql, slice_from, slice_to.
  rewrite Hq. destruct (find_Some _ _ _ Hq) as [-> _].
  rewrite drop_drop.
  change (length (py "SQLQuery:")) with 9.
  by rewrite Hr.
Qed.

(** Without the "SQLQuery:" label the whole completion is kept, up to the
    first "SQLResult:" if there is one. *)
Lemma parse_response_no_label (response : pystr) (query_bundle : QueryBundle) :
  find (py "SQLQuery:") response = None →
  Base._parse_response_to_sql response query_bundle
  = strip (strip_chars (py "```") (strip
      (match find (py "SQLResult:") response with
       | Some j => take j response
       | None => response
       end))).
Proof.
  intros Hq. unfold Base._parse_response_to_sql, slice_to. by rewrite Hq.
Qed.

(** The scenario of the specification: label, statement, fabricated result. *)
Example parse_response_scenario (query_bundle : QueryBundle) :
  Base._parse_response_to_sql
    (py "SQLQuery: SELECT COUNT(*) FROM orders SQLResult: 5") query_bundle
  = py "SELECT COUNT(*) FROM orders".
Proof. reflexivity. Qed.

(** A fenced statement is unwrapped. *)
Example parse_response_fenced (query_bundle : QueryBundle) :
  Base._parse_response_to_sql
    (py "SQLQuery: ```SELECT 1``` SQLResult: 1") query_bundle
  = py "SELECT 1".
Proof. reflexivity. Qed.

(** The worded extraction on the same inputs. *)
Example extract_sql_scenario :
  Spec.extract_sql (py "SQLQuery: SELECT COUNT(*) FROM orders SQLResult: 5")
  = py "SELECT COUNT(*) FROM orders".
Proof. reflexivity. Qed.

Example extract_sql_fenced :
  Spec.extract_sql (py "SQLQuery: ```SELECT 1``` SQLResult: 1") = py "SELECT 1".
Proof. reflexivity. Qed.

(** C1. With both labels present the extraction is specified to return the
    text between them, trimmed, with triple-backtick fence markers stripped.
    On a statement that ends in a backtick-quoted identifier the code
    returns the statement without its closing backtick: [strip("```")]
    removes every leading and trailing backtick, not fence markers only. *)
Theorem C1_extraction_drops_closing_backtick (query_bundle : QueryBundle) :
  let completion := py "SQLQuery: SELECT * FROM `orders` SQLResult: 5" in
  Base._parse_response_to_sql completion query_bundle = py "SELECT * FROM `orders"
  ∧ Spec.extract_sql completion = py "SELECT * FROM `orders`"
  ∧ Base._parse_response_to_sql completion query_bundle
    ≠ Spec.extract_sql completion.
Proof. repeat split. discriminate. Qed.

(** C6. Without the "SQLQuery:" label the whole completion, trimmed and
    fence-stripped, is specified to be the statement.  The code returns the
    completion without the closing backtick of its last identifier, by the
    same [strip("```")]. *)
Theorem C6_unlabelled_extraction_drops_closing_backtick
    (query_bundle : QueryBundle) :
  let completion := py "SELECT * FROM `orders`" in
  find (py "SQLQuery:") completion = None
  ∧ Base._parse_response_to_sql completion query_bundle = py "SELECT * FROM `orders"
  ∧ Spec.extract_sql completion = py "SELECT * FROM `orders`"
  ∧ Base._parse_response_to_sql completion query_bundle
    ≠ Spec.extract_sql completion.
Proof. repeat split. discriminate. Qed.

(** ** The orchestrator *)

Lemma lookup_sql_query_insert (sql : pystr) (metadata : gmap pystr pyval) :
  <[py "sql_query" := VStr sql]> metadata !! py "sql_query" = Some (VStr sql).
Proof. apply lookup_insert_eq. Qed.

(** [d.update(other)] keeps every entry of [other]. *)
Lemma metadata_update_keeps (d : option (gmap pystr pyval))
    (other merged : gmap pystr pyval) (k : pystr) (v : pyval) :
  metadata_update d other = Ok merged →
  other !! k = Some v → merged !! k = Some v.
Proof.
  destruct d as [d|]; simpl; [|done].
  intros [= <-] Hk. by apply lookup_union_Some_l.
Qed.

Section OrchestratorFacts.
Context {E : Type} `{!SQLTableQueryEngine E}.
Implicit Types (self : E) (query_bundle : QueryBundle).

Local Ltac unfold_run :=
  unfold completed, stages_done, synthesis_prompt, text_to_sql_bindings,
    _query, _aquery;
  unfold mbind, M_bind, call, lift, mret, M_ret, get_response_synthesizer.

(** A run of [_query] returns exactly when its stages complete. *)
Lemma _query_completed self query_bundle tr resp :
  _query self query_bundle = (tr, Ok resp)
  ↔ completed false self query_bundle tr resp.
Proof.
  unfold_run. split.
  - destruct (_get_table_context self query_bundle)
      as [table_desc_str|?] eqn:Hctx; [|done].
    destruct (predict _ _ _) as [response_str|?] eqn:Hllm; [|done].
    destruct (_parse_response_to_sql self response_str query_bundle)
      as [pre [sql|?]] eqn:Hparse; [|done].
    destruct (run_sql _ sql) as [[raw emd]|?] eqn:Hrun; [|done].
    destruct (Base._synthesize_response (super self)) eqn:Hsyn.
    + destruct (synthesize _ _ _) as [r|?] eqn:Hsynth; [|done].
      destruct (Response.metadata r) as [smd|] eqn:Hsmd; [|done].
      simpl. intros [= <- <-].
      exists table_desc_str, response_str, pre, sql, raw, emd.
      split; [done|]. by exists r, smd.
    + simpl. intros [= <- <-].
      by exists table_desc_str, response_str, pre, sql, raw, emd.
  - intros (table_desc_str & response_str & pre & sql & raw & emd
            & (Hctx & Hllm & Hparse & Hrun) & Hrest).
    rewrite Hctx, Hllm, Hparse, Hrun.
    destruct (Base._synthesize_response (super self)).
    + destruct Hrest as (r & smd & Hsynth & Hsmd & -> & ->).
      by rewrite Hsynth, Hsmd.
    + by destruct Hrest as [-> ->].
Qed.

(** The same for [_aquery], on the asynchronous calls. *)
Lemma _aquery_completed self query_bundle tr resp :
  _aquery self query_bundle = (tr, Ok resp)
  ↔ completed true self query_bundle tr resp.
Proof.
  unfold_run. split.
  - destruct (_get_table_context self query_bundle)
      as [table_desc_str|?] eqn:Hctx; [|done].
    destruct (apredict _ _ _) as [response_str|?] eqn:Hllm; [|done].
    destruct (_parse_response_to_sql self response_str query_bundle)
      as [pre [sql|?]] eqn:Hparse; [|done].
    destruct (run_sql _ sql) as [[raw emd]|?] eqn:Hrun; [|done].
    destruct (Base._synthesize_response (super self)) eqn:Hsyn.
    + destruct (asynthesize _ _ _) as [r|?] eqn:Hsynth; [|done].
      destruct (Response.metadata r) as [smd|] eqn:Hsmd; [|done].
      simpl. intros [= <- <-].
      exists table_desc_str, response_str, pre, sql, raw, emd.
      split; [done|]. by exists r, smd.
    + simpl. intros [= <- <-].
      by exists table_desc_str, response_str, pre, sql, raw, emd.
  - intros (table_desc_str & response_str & pre & sql & raw & emd
            & (Hctx & Hllm & Hparse & Hrun) & Hrest).
    rewrite Hctx, Hllm, Hparse, Hrun.
    destruct (Base._synthesize_response (super self)).
    + destruct Hrest as (r & smd & Hsynth & Hsmd & -> & ->).
      by rewrite Hsynth, Hsmd.
    + by destruct Hrest as [-> ->].
Qed.

End OrchestratorFacts.

Lemma run_query_completed {E : Type} `{!SQLTableQueryEngine E} (async : bool)
    (self : E) (query_bundle : QueryBundle) (tr : list event) (resp : Response.t) :
  run_query async self query_bundle = (tr, Ok resp)
  ↔ completed async self query_bundle tr resp.
Proof.
  destruct async; [apply _aquery_completed | apply _query_completed].
Qed.

(** C2. Every response returned by a full query, synchronous or
    asynchronous, with or without synthesis, carries in its metadata the
    statement that was executed, under the key "sql_query"; and every entry
    of the execution metadata is in the returned metadata with its value,
    whatever the synthesizer's own metadata held under the same key. *)
Theorem C2_metadata_carries_executed_sql {E : Type} `{!SQLTableQueryEngine E}
    (async : bool) (self : E) (query_bundle : QueryBundle)
    (tr : list event) (resp : Response.t) :
  run_query async self query_bundle = (tr, Ok resp) →
  ∃ (sql raw : pystr) (emd md : gmap pystr pyval),
    RunSql sql ∈ tr
    ∧ run_sql (Base._sql_database (super self)) sql = Ok (raw, emd)
    ∧ Response.metadata resp = Some md
    ∧ md !! py "sql_query" = Some (VStr sql)
    ∧ ∀ k v, <[py "sql_query" := VStr sql]> emd !! k = Some v → md !! k = Some v.
Proof.
  intros Hrun. apply run_query_completed in Hrun
    as (ctx & c & pre & sql & raw & emd & (_ & _ & _ & Hexec) & Hrest).
  destruct (Base._synthesize_response (super self)).
  - destruct Hrest as (r & smd & _ & _ & -> & ->).
    exists sql, raw, emd, (<[py "sql_query" := VStr sql]> emd ∪ smd).
    repeat split; [set_solver | done | |].
    + apply lookup_union_Some_l, lookup_insert_eq.
    + intros k v. apply lookup_union_Some_l.
  - destruct Hrest as [-> ->].
    exists sql, raw, emd, (<[py "sql_query" := VStr sql]> emd).
    repeat split; [set_solver | done | apply lookup_insert_eq | done].
Qed.

(** The synthesizer of the example reports its own "sql_query"; the
    response still carries the executed statement. *)
Lemma C2_witness :
  let engine := Example.nl_engine true None in
  ∃ (sql raw : pystr) (emd md : gmap pystr pyval),
    RunSql sql ∈ (run_query false engine Example.question).1
    ∧ run_sql (Base._sql_database (super engine)) sql = Ok (raw, emd)
    ∧ Response.metadata Example.synthesized_answer = Some md
    ∧ md !! py "sql_query" = Some (VStr sql)
    ∧ ∀ k v, <[py "sql_query" := VStr sql]> emd !! k = Some v → md !! k = Some v.
Proof.
  intros engine.
  apply (C2_metadata_carries_executed_sql false engine Example.question
           (run_query false engine Example.question).1
           Example.synthesized_answer).
  vm_compute. reflexivity.
Defined.

(** C7. With synthesis disabled the response text is the raw execution
    result, the metadata is the execution metadata with the "sql_query"
    entry added, and the execution is the last call of the run: no
    synthesis step follows it. *)
Theorem C7_no_synthesis_returns_raw_result {E : Type} `{!SQLTableQueryEngine E}
    (async : bool) (self : E) (query_bundle : QueryBundle)
    (tr : list event) (resp : Response.t) :
  Base._synthesize_response (super self) = false →
  run_query async self query_bundle = (tr, Ok resp) →
  ∃ (sql raw : pystr) (emd : gmap pystr pyval),
    run_sql (Base._sql_database (super self)) sql = Ok (raw, emd)
    ∧ last tr = Some (RunSql sql)
    ∧ Response.response resp = Some raw
    ∧ Response.metadata resp = Some (<[py "sql_query" := VStr sql]> emd).
Proof.
  intros Hflag Hrun. apply run_query_completed in Hrun
    as (ctx & c & pre & sql & raw & emd & (_ & _ & _ & Hexec) & Hrest).
  rewrite Hflag in Hrest. destruct Hrest as [-> ->].
  exists sql, raw, emd. repeat split; [done|].
  by rewrite app_comm_cons, last_snoc.
Qed.

Lemma C7_witness :
  let engine := Example.nl_engine false None in
  ∃ (sql raw : pystr) (emd : gmap pystr pyval),
    run_sql (Base._sql_database (super engine)) sql = Ok (raw, emd)
    ∧ last (run_query true engine Example.question).1 = Some (RunSql sql)
    ∧ Response.response Example.raw_answer = Some raw
    ∧ Response.metadata Example.raw_answer
      = Some (<[py "sql_query" := VStr sql]> emd).
Proof.
  intros engine.
  apply (C7_no_synthesis_returns_raw_result true engine Example.question
           (run_query true engine Example.question).1 Example.raw_answer).
  - reflexivity.
  - vm_compute. reflexivity.
Defined.

(** ** Table context providers *)

(** The calls of a sequence of stages. *)
Lemma calls_lift_bind {A B : Type} (a : A) (f : A → M B) :
  calls (lift (Ok a) ≫= f) = calls (f a).
Proof. unfold mbind, M_bind, calls, lift. by destruct (f a). Qed.

Lemma calls_call_bind {A B : Type} (ev : event) (a : A) (f : A → M B) :
  calls (call ev (Ok a) ≫= f) = ev :: calls (f a).
Proof. unfold mbind, M_bind, calls, call. by destruct (f a). Qed.

Lemma calls_call_head {A B : Type} (ev : event) (r : result A) (f : A → M B) :
  ∃ rest, calls (call ev r ≫= f) = ev :: rest.
Proof.
  destruct r as [a|e]; [rewrite calls_call_bind|]; by eexists.
Qed.

Lemma calls_ret_bind {A B : Type} (a : A) (f : A → M B) :
  calls (mret a ≫= f) = calls (f a).
Proof. unfold mbind, M_bind, calls, mret, M_ret. by destruct (f a). Qed.

(** Once the context stage returned, the generation call is the first call
    of the run, made with that context as the schema. *)
Lemma run_query_generation_first {E : Type} `{!SQLTableQueryEngine E}
    (async : bool) (self : E) (query_bundle : QueryBundle)
    (table_desc_str : pystr) :
  _get_table_context self query_bundle = Ok table_desc_str →
  ∃ rest,
    calls (run_query async self query_bundle)
    = Predict async (Base._text_to_sql_prompt (super self))
              (text_to_sql_bindings self query_bundle table_desc_str) :: rest.
Proof.
  intros Hctx. unfold run_query, _query, _aquery, text_to_sql_bindings.
  destruct async; rewrite Hctx, calls_lift_bind; apply calls_call_head.
Qed.

(** When the generation call answers, the statement extracted from the
    answer is submitted for execution. *)
Lemma run_query_executes_extraction (async : bool)
    (self : SQLTableRetrieverQueryEngine.t) (query_bundle : QueryBundle)
    (table_desc_str response_str : pystr) :
  _get_table_context self query_bundle = Ok table_desc_str →
  (if async then apredict else predict)
    (Base._service_context (super self)) (Base._text_to_sql_prompt (super self))
    (text_to_sql_bindings self query_bundle table_desc_str) = Ok response_str →
  RunSql (Base._parse_response_to_sql response_str query_bundle)
  ∈ calls (run_query async self query_bundle).
Proof.
  intros Hctx Hllm. unfold run_query, _query, _aquery.
  unfold text_to_sql_bindings in Hllm.
  destruct async; rewrite Hctx, calls_lift_bind, Hllm, calls_call_bind;
    change (_parse_response_to_sql self response_str query_bundle)
      with (mret (M:=M) (Base._parse_response_to_sql response_str query_bundle));
    rewrite calls_ret_bind;
    match goal with
    | |- context [call ?ev ?r ≫= ?f] =>
        destruct (calls_call_head ev r f) as [rest ->]
    end; set_solver.
Qed.

(** C9. When the retriever returns no table descriptor and no prefix was
    configured, the retriever variant returns the empty string as context;
    the query, on either path, then makes the generation call with an empty
    schema, and once the model answers, submits the extracted statement for
    execution. *)
Theorem C9_empty_retrieval_gives_empty_context
    (self : SQLTableRetrieverQueryEngine.t) (query_bundle : QueryBundle) :
  retrieve (SQLTableRetrieverQueryEngine._table_retriever self) query_bundle = [] →
  SQLTableRetrieverQueryEngine._context_str_prefix self = None →
  SQLTableRetrieverQueryEngine._get_table_context self query_bundle = Ok []
  ∧ ∀ async : bool,
      let generation_bindings :=
        [(py "query_str", query_str query_bundle);
         (py "schema", []);
         (py "dialect", dialect (Base._sql_database (super self)))] in
      (∃ rest,
         calls (run_query async self query_bundle)
         = Predict async (Base._text_to_sql_prompt (super self))
                   generation_bindings :: rest)
      ∧ ∀ response_str,
          (if async then apredict else predict)
            (Base._service_context (super self))
            (Base._text_to_sql_prompt (super self)) generation_bindings
          = Ok response_str →
          RunSql (Base._parse_response_to_sql response_str query_bundle)
          ∈ calls (run_query async self query_bundle).
Proof.
  intros Hretrieve Hprefix.
  assert (Hctx : SQLTableRetrieverQueryEngine._get_table_context self query_bundle
                 = Ok []).
  { unfold SQLTableRetrieverQueryEngine._get_table_context.
    by rewrite Hprefix, Hretrieve. }
  split; [done|]. intros async generation_bindings. split.
  - by apply run_query_generation_first.
  - intros response_str Hllm.
    by apply (run_query_executes_extraction async self query_bundle []).
Qed.

Lemma C9_witness :
  let self := Example.retriever_engine in
  SQLTableRetrieverQueryEngine._get_table_context self Example.question = Ok []
  ∧ ∀ async : bool,
      let generation_bindings :=
        [(py "query_str", query_str Example.question);
         (py "schema", []);
         (py "dialect", dialect (Base._sql_database (super self)))] in
      (∃ rest,
         calls (run_query async self Example.question)
         = Predict async (Base._text_to_sql_prompt (super self))
                   generation_bindings :: rest)
      ∧ ∀ response_str,
          (if async then apredict else predict)
            (Base._service_context (super self))
            (Base._text_to_sql_prompt (super self)) generation_bindings
          = Ok response_str →
          RunSql (Base._parse_response_to_sql response_str Example.question)
          ∈ calls (run_query async self Example.question).
Proof.
  intros self.
  apply (C9_empty_retrieval_gives_empty_context self Example.question);
    reflexivity.
Defined.

Section FixedList.
Variable self : NLSQLTableQueryEngine.t.
Import NLSQLTableQueryEngine.

(** Over name strings the loop appends one description per entry, in the
    order of the entries. *)
Lemma tables_loop_names (names : list pystr) (context_strs : list pystr) :
  tables_loop self (TStr <$> names) context_strs
  = Ok (context_strs
        ++ (table_info_with_context (Base._sql_database (base self))
              (Base._context_query_kwargs (base self)) <$> names)).
Proof.
  revert context_strs. induction names as [|n names IH]; intros acc; simpl.
  - by rewrite app_nil_r.
  - unfold mbind, result_bind. rewrite IH. by rewrite <- app_assoc.
Qed.

(** The loop stops at the first entry that is not a name string; a
    [Table] is such an entry. *)
Lemma tables_loop_rejects (names : list pystr) (entry : table_entry)
    (rest : list table_entry) (context_strs : list pystr) :
  (∀ s, entry ≠ TStr s) →
  tables_loop self ((TStr <$> names) ++ entry :: rest) context_strs
  = Err (ValueError (UnknownTableType entry)).
Proof.
  intros Hentry. revert context_strs.
  induction names as [|n names IH]; intros acc; simpl.
  - destruct entry as [s| |]; [by destruct (Hentry s) | done | done].
  - unfold mbind, result_bind. apply IH.
Qed.

Lemma table_names_loop_names (names : list pystr) (context_strs : list pystr) :
  table_names_loop self names context_strs
  = context_strs
    ++ (table_info_with_context (Base._sql_database (base self))
          (Base._context_query_kwargs (base self)) <$> names).
Proof.
  revert context_strs. induction names as [|n names IH]; intros acc; simpl.
  - by rewrite app_nil_r.
  - rewrite IH. by rewrite <- app_assoc.
Qed.
End FixedList.

(** C3. A [Table] entry of the table list is specified to be normalized to
    its name and accepted.  The code raises the validation error on it: the
    test for a name string is a second [if], not an [elif], so its [else]
    branch is taken for every [Table]. *)
Theorem C3_table_reference_raises (engine : BaseSQLTableQueryEngine.t)
    (names : list pystr) (table : Table) (rest : list table_entry)
    (query_bundle : QueryBundle) :
  NLSQLTableQueryEngine._get_table_context
    {| NLSQLTableQueryEngine.base := engine;
       NLSQLTableQueryEngine._tables :=
         Some ((TStr <$> names) ++ TTable table :: rest) |}
    query_bundle
  = Err (ValueError (UnknownTableType (TTable table))).
Proof.
  unfold NLSQLTableQueryEngine._get_table_context.
  assert (Htruthy : NLSQLTableQueryEngine.truthy_tables
                      (Some ((TStr <$> names) ++ TTable table :: rest)) = true)
    by (by destruct names).
  cbn [NLSQLTableQueryEngine._tables or_default]. rewrite Htruthy.
  by rewrite tables_loop_rejects.
Qed.

(** Given a list of table names, the fixed-list provider returns the
    descriptions of exactly these tables, in the order of the list, joined
    by a blank line; given no list (or an empty one) it returns the
    descriptions of the tables the database reports as usable, in the order
    reported, joined the same way. *)
Lemma context_keeps_name_order (engine : BaseSQLTableQueryEngine.t)
    (first : pystr) (others : list pystr) (query_bundle : QueryBundle) :
  let describe :=
    NLSQLTableQueryEngine.table_info_with_context
      (Base._sql_database engine) (Base._context_query_kwargs engine) in
  let context_for tables :=
    NLSQLTableQueryEngine._get_table_context
      {| NLSQLTableQueryEngine.base := engine;
         NLSQLTableQueryEngine._tables := tables |} query_bundle in
  let reported := get_usable_table_names (Base._sql_database engine) in
  context_for (Some (TStr <$> first :: others))
  = Ok (join [10; 10]%N (describe <$> first :: others))
  ∧ context_for None = Ok (join [10; 10]%N (describe <$> reported))
  ∧ context_for (Some []) = Ok (join [10; 10]%N (describe <$> reported)).
Proof.
  unfold NLSQLTableQueryEngine._get_table_context. simpl. repeat split.
  - change (TStr first :: (TStr <$> others)) with (TStr <$> first :: others).
    by rewrite tables_loop_names.
  - by rewrite table_names_loop_names.
  - by rewrite table_names_loop_names.
Qed.

(** The worded provider accepts table references as it accepts names. *)
Lemma spec_table_names_of_tables (tables : list Table) :
  Spec.table_names_of (TTable <$> tables) = Ok (name <$> tables).
Proof.
  induction tables as [|tbl tables IH]; [done|].
  change (TTable <$> tbl :: tables) with (TTable tbl :: (TTable <$> tables)).
  cbn [Spec.table_names_of Spec.table_name_of].
  unfold mbind, result_bind. by rewrite IH.
Qed.

(** C8. The fixed-list provider is specified to emit the descriptions of
    the listed tables in the order of the list, for names and for table
    references alike.  On a list of table references the code emits
    nothing: it raises the ValueError at the first entry, where the worded
    provider returns the descriptions of the referenced tables in the
    order of the list. *)
Theorem C8_table_references_emit_nothing (engine : BaseSQLTableQueryEngine.t)
    (first : Table) (others : list Table) (query_bundle : QueryBundle) :
  let tables := TTable <$> first :: others in
  let describe :=
    NLSQLTableQueryEngine.table_info_with_context
      (Base._sql_database engine) (Base._context_query_kwargs engine) in
  NLSQLTableQueryEngine._get_table_context
    {| NLSQLTableQueryEngine.base := engine;
       NLSQLTableQueryEngine._tables := Some tables |} query_bundle
  = Err (ValueError (UnknownTableType (TTable first)))
  ∧ Spec.fixed_list_context (Base._sql_database engine)
      (Base._context_query_kwargs engine) tables
    = Ok (join [10; 10]%N (describe <$> (name <$> first :: others))).
Proof.
  intros tables describe. split.
  - done.
  - unfold Spec.fixed_list_context, tables.
    by rewrite spec_table_names_of_tables.
Qed.

(** Two table references of the example, listed in reverse of the order the
    database reports them: the code raises, the worded provider lists them
    in the caller's order. *)
Example table_references_in_caller_order :
  let tables :=
    [TTable {| name := py "customers" |}; TTable {| name := py "orders" |}] in
  NLSQLTableQueryEngine._get_table_context
    (Example.nl_engine false (Some tables)) Example.question
  = Err (ValueError (UnknownTableType (TTable {| name := py "customers" |})))
  ∧ Spec.fixed_list_context Example.database
      {[ py "orders" := py "one row per order" ]} tables
    = Ok (py "Table customers has columns: id (INTEGER)" ++ [10; 10]%N
          ++ py "Table orders has columns: id (INTEGER) The table description is: one row per order").
Proof. split; reflexivity. Qed.

(** The context block of the example, with tables given in reverse of the
    order the database reports them. *)
Example context_in_caller_order :
  NLSQLTableQueryEngine._get_table_context
    (Example.nl_engine false (Some [TStr (py "customers"); TStr (py "orders")]))
    Example.question
  = Ok (py "Table customers has columns: id (INTEGER)" ++ [10; 10]%N
        ++ py "Table orders has columns: id (INTEGER) The table description is: one row per order").
Proof. reflexivity. Qed.

(** ** Construction *)

Lemma _validate_prompt_rejects (p : BasePromptTemplate) :
  template_vars p ≠ [py "query_str"; py "sql_query"; py "context_str"] →
  _validate_prompt p = Err (ValueError BadPromptVariables).
Proof.
  intros Hne. unfold _validate_prompt. by rewrite bool_decide_eq_true_2.
Qed.

Lemma construction_fails_of_vars (p : BasePromptTemplate) :
  template_vars p ≠ [py "query_str"; py "sql_query"; py "context_str"] →
  construction_fails p.
Proof.
  intros Hne. unfold construction_fails. intros.
  unfold PGVectorSQLQueryEngine.__init__, NLSQLTableQueryEngine.__init__,
    SQLTableRetrieverQueryEngine.__init__, Base.__init__.
  simpl. by rewrite (_validate_prompt_rejects p Hne).
Qed.

(** With no custom synthesis prompt, or with one that declares the three
    variables as the default does, the validation passes and the engine is
    built. *)
Lemma construction_with_valid_prompt
    (default_prompt : BasePromptTemplate) (default_context : ServiceContext)
    (sql_database : SQLDatabase) (synthesize_response : bool)
    (p : option BasePromptTemplate) :
  template_vars (or_default p DEFAULT_RESPONSE_SYNTHESIS_PROMPT_V2)
  = [py "query_str"; py "sql_query"; py "context_str"] →
  Base.__init__ default_prompt default_context sql_database None None
    synthesize_response p None
  = Ok {| Base._sql_database := sql_database;
          Base._service_context := default_context;
          Base._text_to_sql_prompt := default_prompt;
          Base._response_synthesis_prompt :=
            or_default p DEFAULT_RESPONSE_SYNTHESIS_PROMPT_V2;
          Base._context_query_kwargs := ∅;
          Base._synthesize_response := synthesize_response |}.
Proof.
  intros Hvars. unfold Base.__init__, _validate_prompt. simpl.
  by rewrite Hvars.
Qed.

(** C4. A custom synthesis prompt whose set of template variables is not
    exactly query_str, sql_query, context_str makes the construction of the
    orchestrator, and of each of its subclasses, fail with the ValueError of
    the prompt validation: no engine is returned, so no query can be
    processed.  In particular a prompt without context_str is rejected. *)
Theorem C4_bad_synthesis_prompt_fails_construction (p : BasePromptTemplate) :
  ((list_to_set (template_vars p) : gset pystr)
     ≠ {[ py "query_str"; py "sql_query"; py "context_str" ]}
   → construction_fails p)
  ∧ (py "context_str" ∉ template_vars p → construction_fails p).
Proof.
  split; intros Hvars; apply construction_fails_of_vars; intros Heq;
    rewrite Heq in Hvars; apply Hvars.
  - simpl. by rewrite union_empty_r_L, !assoc_L by apply _.
  - set_solver.
Qed.

(** A prompt that declares query_str and sql_query only is rejected, by the
    orchestrator and by the retriever variant. *)
Lemma C4_witness :
  let p := PromptTemplate (py "Query: {query_str} SQL: {sql_query}")
                          [py "query_str"; py "sql_query"] in
  Base.__init__ Example.text_to_sql_prompt Example.context Example.database
    None None true (Some p) None
  = Err (ValueError BadPromptVariables)
  ∧ SQLTableRetrieverQueryEngine.__init__ Example.text_to_sql_prompt
      Example.context Example.database Example.empty_retriever
      None None true (Some p) None None
    = Err (ValueError BadPromptVariables).
Proof.
  intros p.
  destruct (C4_bad_synthesis_prompt_fails_construction p) as [Hset Hmissing].
  split.
  - refine (proj1 (Hset _ Example.text_to_sql_prompt Example.text_to_sql_prompt
                     Example.context Example.database None None true None
                     None Example.empty_retriever None)).
    intros Heq.
    assert (Hin : py "context_str" ∈ (list_to_set (template_vars p) : gset pystr))
      by (rewrite Heq; set_solver).
    apply elem_of_list_to_set in Hin. simpl in Hin.
    by repeat (apply elem_of_cons in Hin as [Hin|Hin]; [discriminate Hin|]);
      apply elem_of_nil in Hin.
  - refine (proj2 (proj2 (proj2
             (Hmissing _ Example.text_to_sql_prompt Example.text_to_sql_prompt
                Example.context Example.database None None true None
                None Example.empty_retriever None)))).
    simpl. intros Hin.
    by repeat (apply elem_of_cons in Hin as [Hin|Hin]; [discriminate Hin|]);
      apply elem_of_nil in Hin.
Defined.

(** ** Placeholder substitution *)

Lemma replace_scan_cons (old new : pystr) (x : pychar) (s : pystr) :
  replace_scan old new 0 (x :: s)
  = if startswith old (x :: s)
    then new ++ replace_scan old new (length old - 1) s
    else x :: replace_scan old new 0 s.
Proof. done. Qed.

Section Replace.
Variables (old new : pystr) (c : pychar) (body : pystr).

(** The token begins with a character that does not occur again in it, so
    two occurrences of it cannot overlap. *)
Hypothesis old_split : old = c :: body.
Hypothesis head_unique : char_in body c = false.

Lemma head_not_in_body : c ∉ body.
Proof.
  intros Hin. unfold char_in in head_unique.
  assert (existsb (N.eqb c) body = true); [|congruence].
  apply existsb_exists. exists c. split; [by apply list_elem_of_In|].
  apply N.eqb_refl.
Qed.

Lemma replace_scan_skip (pre rest : pystr) :
  replace_scan old new (length pre) (pre ++ rest) = replace_scan old new 0 rest.
Proof. induction pre as [|x pre IH]; [done | apply IH]. Qed.

(** A string without occurrence of the token is left as it is. *)
Lemma replace_scan_absent (s : pystr) :
  find old s = None → replace_scan old new 0 s = s.
Proof.
  induction s as [|x s IH]; [done|].
  rewrite find_cons, replace_scan_cons.
  destruct (startswith _ _); [done|].
  destruct (find old s); [done|]. intros _. f_equal. by apply IH.
Qed.

(** In front of an occurrence, a piece that has none hides none either. *)
Lemma startswith_before_occurrence (p rest : pystr) :
  p ≠ [] → startswith old p = false →
  startswith old (p ++ old ++ rest) = false.
Proof.
  intros Hp Hfree. destruct (startswith old (p ++ old ++ rest)) eqn:Hs; [|done].
  apply startswith_prefix in Hs as [tail Htail].
  destruct p as [|x p]; [done|]. rewrite old_split in Htail, Hfree.
  simpl in Htail. injection Htail as -> Htail.
  (* Htail : p ++ c :: body ++ rest = body ++ tail *)
  assert (Hlen : length p < length body).
  { destruct (decide (length p < length body)) as [|Hge]; [done|].
    exfalso. apply not_true_iff_false in Hfree. apply Hfree.
    apply startswith_prefix. exists (drop (length body) p).
    f_equal. rewrite <- (take_drop (length body) p) at 1. f_equal.
    apply (f_equal (take (length body))) in Htail.
    rewrite take_app_length in Htail.
    rewrite take_app_le in Htail by lia. by rewrite Htail. }
  exfalso. apply head_not_in_body.
  apply (f_equal (λ l, l !! length p)) in Htail.
  rewrite lookup_app_r, Nat.sub_diag in Htail by done.
  rewrite lookup_app_l in Htail by done.
  simpl in Htail. symmetry in Htail.
  by apply list_elem_of_lookup_2 in Htail.
Qed.

(** A piece without occurrence, followed by the token, followed by the
    rest: the piece is kept, the token replaced, the scan goes on. *)
Lemma replace_scan_piece (p rest : pystr) :
  find old p = None →
  replace_scan old new 0 (p ++ old ++ rest)
  = p ++ new ++ replace_scan old new 0 rest.
Proof.
  induction p as [|x p IH]; intros Hfree.
  - simpl app. rewrite old_split at 2. simpl app.
    rewrite replace_scan_cons.
    replace (c :: body ++ rest) with (old ++ rest) by (by rewrite old_split).
    rewrite startswith_app. f_equal.
    replace (length old - 1) with (length body)
      by (rewrite old_split; simpl; lia).
    apply replace_scan_skip.
  - rewrite find_cons in Hfree.
    destruct (startswith _ _) eqn:Hs in Hfree; [done|].
    destruct (find old p) eqn:Hf; [done|].
    change ((x :: p) ++ old ++ rest) with (x :: (p ++ old ++ rest)).
    rewrite replace_scan_cons.
    change (x :: (p ++ old ++ rest)) with ((x :: p) ++ old ++ rest).
    rewrite startswith_before_occurrence by done.
    simpl. f_equal. by apply IH.
Qed.

(** Every string can be cut at its occurrences of the token: it is the
    pieces between them joined by the token, and no piece holds the token. *)
Lemma cut_exists (s : pystr) :
  ∃ pieces, pieces ≠ []
    ∧ Forall (λ p, find old p = None) pieces
    ∧ s = join old pieces.
Proof.
  assert (Hold : old ≠ []) by (by rewrite old_split).
  remember (length s) as n eqn:Hn. revert s Hn.
  induction n as [n IH] using lt_wf_ind. intros s ->.
  destruct (find old s) as [i|] eqn:Hf.
  - pose proof (find_Some_split _ _ _ Hf) as Hsplit.
    destruct (IH (length (drop (i + length old) s))) with
      (s := drop (i + length old) s) as (pieces & Hne & Hfree & Hrest); [|done|].
    { apply (f_equal length) in Hsplit.
      rewrite !length_app in Hsplit. rewrite length_drop.
      destruct old; [done|]. simpl in *. lia. }
    exists (take i s :: pieces). repeat split; [done| |].
    + constructor; [by apply find_take_None | done].
    + destruct pieces as [|q pieces]; [done|].
      change (join old (take i s :: q :: pieces))
        with (take i s ++ old ++ join old (q :: pieces)).
      by rewrite <- Hrest.
  - exists [s]. repeat split; [done | by constructor].
Qed.

(** Every occurrence is replaced: a string cut at its occurrences of the
    token is rebuilt with the replacement in their place. *)
Lemma replace_join (pieces : list pystr) :
  Forall (λ p, find old p = None) pieces →
  replace old new (join old pieces) = join new pieces.
Proof.
  replace (replace old new) with (replace_scan old new 0)
    by (by rewrite old_split).
  induction 1 as [|p pieces Hp Hrest IH]; [done|].
  destruct pieces as [|q pieces].
  - simpl. by apply replace_scan_absent.
  - change (join old (p :: q :: pieces)) with (p ++ old ++ join old (q :: pieces)).
    change (join new (p :: q :: pieces)) with (p ++ new ++ join new (q :: pieces)).
    rewrite replace_scan_piece by done. by rewrite IH.
Qed.

Lemma replace_absent (s : pystr) :
  find old s = None → replace old new s = s.
Proof.
  replace (replace old new) with (replace_scan old new 0)
    by (by rewrite old_split).
  apply replace_scan_absent.
Qed.
End Replace.


(** C5. The vector-aware extraction returns the cleaned statement in which
    every occurrence of the token [query_vector] (in brackets) is replaced
    by the text of the question's embedding vector: cut at its occurrences
    of the token, the statement is rebuilt with the vector text in their
    place (such a cut exists for every statement, and any such cut gives
    the result).  On a cleaned statement without the token the substitution
    changes nothing, and so does applying it again. *)
Theorem C5_placeholder_substitution (self : PGVectorSQLQueryEngine.t)
    (response : pystr) (query_bundle : QueryBundle) :
  let token := py "[query_vector]" in
  let cleaned := Base._parse_response_to_sql response query_bundle in
  let vector :=
    str_of_floats
      (get_query_embedding (Base._service_context (super self))
                           (query_str query_bundle)) in
  outcome (PGVectorSQLQueryEngine._parse_response_to_sql self response query_bundle)
  = Ok (replace token vector cleaned)
  ∧ (∃ pieces : list pystr,
       Forall (λ p, find token p = None) pieces
       ∧ cleaned = join token pieces
       ∧ replace token vector cleaned = join vector pieces)
  ∧ (∀ pieces : list pystr,
       Forall (λ p, find token p = None) pieces →
       cleaned = join token pieces →
       replace token vector cleaned = join vector pieces)
  ∧ (find token cleaned = None →
     replace token vector cleaned = cleaned
     ∧ replace token vector (replace token vector cleaned)
       = replace token vector cleaned).
Proof.
  intros token cleaned vector.
  assert (Hsplit : token = 91%N :: py "query_vector]") by done.
  assert (Hhead : char_in (py "query_vector]") 91%N = false) by done.
  split; [done|]. split; [|split].
  - destruct (cut_exists token _ _ Hsplit cleaned)
      as (pieces & _ & Hfree & Hcut).
    exists pieces. split; [done|]. split; [done|]. rewrite Hcut.
    by apply (replace_join token vector _ _ Hsplit Hhead).
  - intros pieces Hfree ->.
    by apply (replace_join token vector _ _ Hsplit Hhead).
  - intros Habsent.
    by rewrite !(replace_absent token vector _ _ Hsplit cleaned Habsent).
Qed.

Lemma C5_witness :
  let token := py "[query_vector]" in
  let vector :=
    str_of_floats (get_query_embedding Example.context (query_str Example.question)) in
  replace token vector
    (py "SELECT id FROM items ORDER BY a <-> '[query_vector]', b <-> '[query_vector]'")
  = join vector [py "SELECT id FROM items ORDER BY a <-> '"; py "', b <-> '"; py "'"]
  ∧ replace token vector Example.statement = Example.statement.
Proof.
  intros token vector. split.
  - destruct (C5_placeholder_substitution Example.pgvector_engine
        (py "SQLQuery: SELECT id FROM items ORDER BY a <-> '[query_vector]', b <-> '[query_vector]' SQLResult: none")
        Example.question) as (_ & _ & Hall & _).
    apply (Hall [py "SELECT id FROM items ORDER BY a <-> '"; py "', b <-> '"; py "'"]).
    + repeat constructor.
    + reflexivity.
  - destruct (C5_placeholder_substitution Example.pgvector_engine
        Example.completion Example.question) as (_ & _ & _ & Hnone).
    apply Hnone. reflexivity.
Defined.

(** The substituted statement of the example. *)
Example pgvector_substitution :
  outcome (PGVectorSQLQueryEngine._parse_response_to_sql Example.pgvector_engine
             (py "SQLQuery: SELECT id FROM items ORDER BY v <-> '[query_vector]' SQLResult:")
             Example.question)
  = Ok (py "SELECT id FROM items ORDER BY v <-> '[0.1, 0.25]'").
Proof. reflexivity. Qed.

(** ** The legacy natural-language engine *)

(** C10. The asynchronous path of the legacy engine never synthesizes:
    whatever [synthesize_response] is, once the context, the generation and
    the execution returned, [_aquery] makes these two calls only and returns
    the raw execution result with the "sql_query" entry added to the
    metadata.  With synthesis enabled, and the same completion on both
    paths, [_query] returns the predictor's rewording instead, so the two
    texts differ whenever the rewording differs from the raw result. *)
Theorem C10_legacy_async_skips_synthesis (self : NLStructStoreQueryEngine.t)
    (query_bundle : QueryBundle) (table_desc_str completion raw : pystr)
    (metadata : gmap pystr pyval) :
  let bindings :=
    [(py "query_str", query_str query_bundle);
     (py "schema", table_desc_str);
     (py "dialect", dialect (NLStructStoreQueryEngine._sql_database self))] in
  let sql := NLStructStoreQueryEngine._parse_response_to_sql completion in
  let llm := NLStructStoreQueryEngine._service_context self in
  NLStructStoreQueryEngine._get_table_context self query_bundle = Ok table_desc_str →
  apredict llm (NLStructStoreQueryEngine._text_to_sql_prompt self) bindings
  = Ok completion →
  run_sql (NLStructStoreQueryEngine._sql_database self) sql = Ok (raw, metadata) →
  NLStructStoreQueryEngine._aquery self query_bundle
  = ([Predict true (NLStructStoreQueryEngine._text_to_sql_prompt self) bindings;
      RunSql sql],
     Ok (Response.mk (Some raw) []
           (Some (<[py "sql_query" := VStr sql]> metadata))))
  ∧ ∀ reworded : pystr,
      NLStructStoreQueryEngine._synthesize_response self = true →
      predict llm (NLStructStoreQueryEngine._text_to_sql_prompt self) bindings
      = Ok completion →
      predict llm (NLStructStoreQueryEngine._response_synthesis_prompt self)
        [(py "query_str", query_str query_bundle);
         (py "sql_query", sql);
         (py "sql_response_str", raw)]
      = Ok reworded →
      reworded ≠ raw →
      ∃ sync async : Response.t,
        outcome (NLStructStoreQueryEngine._query self query_bundle) = Ok sync
        ∧ outcome (NLStructStoreQueryEngine._aquery self query_bundle) = Ok async
        ∧ Response.response sync = Some reworded
        ∧ Response.response async = Some raw
        ∧ Response.response sync ≠ Response.response async.
Proof.
  intros bindings sql llm Hctx Hallm Hrun.
  assert (Hasync :
    NLStructStoreQueryEngine._aquery self query_bundle
    = ([Predict true (NLStructStoreQueryEngine._text_to_sql_prompt self) bindings;
        RunSql sql],
       Ok (Response.mk (Some raw) []
             (Some (<[py "sql_query" := VStr sql]> metadata))))).
  { unfold NLStructStoreQueryEngine._aquery, mbind, M_bind, call, lift.
    rewrite Hctx. fold bindings llm. rewrite Hallm. fold sql. by rewrite Hrun. }
  split; [done|].
  intros reworded Hflag Hllm Hsynth Hne.
  exists (Response.mk (Some reworded) []
            (Some (<[py "sql_query" := VStr sql]> metadata))),
         (Response.mk (Some raw) []
            (Some (<[py "sql_query" := VStr sql]> metadata))).
  repeat split; [| by rewrite Hasync | simpl; congruence].
  unfold NLStructStoreQueryEngine._query, mbind, M_bind, call, lift.
  rewrite Hctx. fold bindings llm. rewrite Hllm. fold sql. rewrite Hrun, Hflag.
  by rewrite Hsynth.
Qed.

Lemma C10_witness :
  let self := Example.legacy_engine true in
  let bindings :=
    [(py "query_str", query_str Example.question);
     (py "schema", py "Table orders has columns: id");
     (py "dialect", py "sqlite")] in
  let sql := py "SQLQuery: SELECT COUNT(*) FROM orders" in
  NLStructStoreQueryEngine._aquery self Example.question
  = ([Predict true Example.text_to_sql_prompt bindings; RunSql sql],
     Ok (Response.mk (Some (py "[(5,)]")) []
           (Some {[ py "sql_query" := VStr sql; py "result" := VObj 1 ]})))
  ∧ ∃ sync async : Response.t,
      outcome (NLStructStoreQueryEngine._query self Example.question) = Ok sync
      ∧ outcome (NLStructStoreQueryEngine._aquery self Example.question) = Ok async
      ∧ Response.response sync = Some (py "There are 5 orders.")
      ∧ Response.response async = Some (py "[(5,)]")
      ∧ Response.response sync ≠ Response.response async.
Proof.
  intros self bindings sql.
  destruct (C10_legacy_async_skips_synthesis self Example.question
              (py "Table orders has columns: id") Example.completion
              (py "[(5,)]") {[ py "result" := VObj 1 ]})
    as [Hasync Hdiffer]; [reflexivity | reflexivity | reflexivity |].
  split.
  - exact Hasync.
  - apply (Hdiffer (py "There are 5 orders.")); [reflexivity..| discriminate].
Defined.

(** * Further properties of the engines *)

(** ** Stripping *)

Section Strip.
Variable p : pychar → bool.

(** What [lstrip] leaves is a suffix of the string, and begins with a
    character that is kept. *)
Lemma lstrip_by_drop (s : pystr) : ∃ k, lstrip_by p s = drop k s.
Proof.
  induction s as [|c s [k IH]].
  - by exists 0.
  - simpl. destruct (p c); [by exists (S k) | by exists 0].
Qed.

Lemma lstrip_by_head (s : pystr) (c : pychar) (t : pystr) :
  lstrip_by p s = c :: t → p c = false.
Proof.
  induction s as [|d s IH]; [done|]. simpl.
  destruct (p d) eqn:Hd; [done|]. by intros [= <- <-].
Qed.

Lemma rstrip_by_snoc (s : pystr) (x : pychar) :
  rstrip_by p (s ++ [x]) = if p x then rstrip_by p s else s ++ [x].
Proof.
  unfold rstrip_by. rewrite rev_app_distr. simpl.
  destruct (p x); [done|]. simpl. by rewrite rev_involutive.
Qed.

(** What [rstrip] leaves is a prefix of the string. *)
Lemma rstrip_by_take (s : pystr) : ∃ k, rstrip_by p s = take k s.
Proof.
  induction s as [|x s [k IH]] using rev_ind.
  - by exists 0.
  - rewrite rstrip_by_snoc. destruct (p x).
    + rewrite IH. destruct (decide (k ≤ length s)).
      * exists k. by rewrite take_app_le.
      * exists (length s). rewrite take_app_length. apply take_ge. lia.
    + exists (length (s ++ [x])). by rewrite take_ge.
Qed.

Lemma rstrip_by_last (s : pystr) (c : pychar) :
  last (rstrip_by p s) = Some c → p c = false.
Proof.
  induction s as [|x s IH] using rev_ind; [done|].
  rewrite rstrip_by_snoc. destruct (p x) eqn:Hx; [done|].
  rewrite last_snoc. by intros [= <-].
Qed.

(** [rstrip] does not reach past a character that is kept. *)
Lemma rstrip_by_head (c : pychar) (t : pystr) :
  p c = false → ∃ t', rstrip_by p (c :: t) = c :: t'.
Proof.
  intros Hc. induction t as [|x t IH] using rev_ind.
  - exists []. change [c] with ([] ++ [c]). by rewrite rstrip_by_snoc, Hc.
  - rewrite app_comm_cons, rstrip_by_snoc. destruct (p x); [done | by eexists].
Qed.

(** A string whose first and last characters are kept is left as it is. *)
Lemma strip_by_fixed (s : pystr) :
  (∀ c, head s = Some c → p c = false) →
  (∀ c, last s = Some c → p c = false) →
  strip_by p s = s.
Proof.
  intros Hhead Hlast. unfold strip_by.
  assert (Hl : lstrip_by p s = s).
  { destruct s as [|c t]; [done|]. simpl. by rewrite (Hhead c). }
  rewrite Hl. clear Hl Hhead.
  destruct s as [|x s _] using rev_ind; [done|].
  rewrite rstrip_by_snoc, (Hlast x); [done|]. apply last_snoc.
Qed.

(** The two ends of a stripped string are characters that are kept. *)
Lemma strip_by_ends (s : pystr) :
  (∀ c, head (strip_by p s) = Some c → p c = false)
  ∧ (∀ c, last (strip_by p s) = Some c → p c = false).
Proof.
  split; intros c; [|apply rstrip_by_last].
  unfold strip_by. destruct (lstrip_by p s) as [|d t] eqn:Hl; [done|].
  pose proof (lstrip_by_head _ _ _ Hl) as Hd.
  destruct (rstrip_by_head d t Hd) as [t' ->]. simpl. by intros [= <-].
Qed.

Lemma strip_by_idemp (s : pystr) : strip_by p (strip_by p s) = strip_by p s.
Proof. apply strip_by_fixed; apply strip_by_ends. Qed.

(** What [strip] leaves is a stretch of the string. *)
Lemma strip_by_stretch (s : pystr) : ∃ i k, strip_by p s = take k (drop i s).
Proof.
  unfold strip_by. destruct (lstrip_by_drop s) as [i ->].
  destruct (rstrip_by_take (drop i s)) as [k ->]. by exists i, k.
Qed.
End Strip.

(** ** Occurrences in stretches and extensions of a string *)

Lemma find_Some_le (sub s : pystr) (i : nat) :
  find sub s = Some i → i ≤ length s.
Proof.
  revert i. induction s as [|c s IH]; intros i.
  - simpl. destruct (startswith sub []); [|done]. intros [= <-]. lia.
  - rewrite find_cons. destruct (startswith sub (c :: s)).
    + intros [= <-]. lia.
    + destruct (find sub s) as [j|]; [|done]. intros [= <-].
      specialize (IH j eq_refl). simpl. lia.
Qed.

Lemma find_Some_intro (sub s : pystr) (i : nat) :
  i ≤ length s →
  startswith sub (drop i s) = true →
  (∀ k, k < i → startswith sub (drop k s) = false) →
  find sub s = Some i.
Proof.
  revert s. induction i as [|i IH]; intros s Hlen Hat Hmin.
  - rewrite drop_0 in Hat. destruct s; [simpl | rewrite find_cons]; by rewrite Hat.
  - destruct s as [|c s]; [simpl in Hlen; lia|].
    pose proof (Hmin 0 ltac:(lia)) as H0. rewrite drop_0 in H0.
    rewrite find_cons, H0, (IH s); [done | simpl in Hlen; lia | done |].
    intros k Hk. apply (Hmin (S k)). lia.
Qed.

Lemma startswith_take_drop (sub s : pystr) (j k : nat) :
  startswith sub (drop j (take k s)) = true →
  startswith sub (drop j s) = true.
Proof.
  intros Hs. apply startswith_prefix in Hs as [r Hr].
  apply startswith_prefix.
  destruct (decide (j ≤ length (take k s))) as [Hj|Hj].
  - exists (r ++ drop k s). rewrite <- (take_drop k s) at 1.
    rewrite drop_app_le by done. by rewrite Hr, <- app_assoc.
  - rewrite drop_ge in Hr by lia. destruct sub; [|done]. by eexists.
Qed.

(** A string without occurrence has none in any of its stretches. *)
Lemma find_None_drop (sub s : pystr) (i : nat) :
  find sub s = None → find sub (drop i s) = None.
Proof.
  intros Hnone. apply find_None_intro. intros k.
  rewrite drop_drop. by apply find_None.
Qed.

Lemma find_None_take (sub s : pystr) (k : nat) :
  find sub s = None → find sub (take k s) = None.
Proof.
  intros Hnone. apply find_None_intro. intros j.
  destruct (startswith sub (drop j (take k s))) eqn:Hs; [|done].
  apply startswith_take_drop in Hs. by rewrite (find_None _ _ Hnone) in Hs.
Qed.

Lemma find_None_strip_by (p : pychar → bool) (sub s : pystr) :
  find sub s = None → find sub (strip_by p s) = None.
Proof.
  intros Hnone. destruct (strip_by_stretch p s) as (i & k & ->).
  by apply find_None_take, find_None_drop.
Qed.

Lemma startswith_app_long (sub a b : pystr) :
  length sub ≤ length a → startswith sub (a ++ b) = startswith sub a.
Proof.
  revert a. induction sub as [|c sub IH]; intros a Hlen; [by destruct a|].
  destruct a as [|d a]; [simpl in Hlen; lia|]. simpl.
  destruct (N.eqb c d); [|done]. apply IH. simpl in Hlen. lia.
Qed.

(** An occurrence found lies within the string. *)
Lemma find_Some_room (sub s : pystr) (i : nat) :
  find sub s = Some i → i + length sub ≤ length s.
Proof.
  intros Hf. destruct (find_Some _ _ _ Hf) as [Hat _].
  pose proof (find_Some_le _ _ _ Hf) as Hle.
  apply startswith_prefix in Hat as [r Hr].
  apply (f_equal length) in Hr. rewrite length_drop, length_app in Hr. lia.
Qed.

Lemma find_at_start (sub s : pystr) :
  startswith sub s = true → find sub s = Some 0.
Proof. intros Hs. destruct s; [simpl | rewrite find_cons]; by rewrite Hs. Qed.

(** The first occurrence stays the first when text is appended. *)
Lemma find_app_l (sub s t : pystr) (i : nat) :
  find sub s = Some i → find sub (s ++ t) = Some i.
Proof.
  intros Hf. destruct (find_Some _ _ _ Hf) as [Hat Hmin].
  pose proof (find_Some_room _ _ _ Hf) as Hroom.
  apply find_Some_intro.
  - rewrite length_app. lia.
  - rewrite drop_app_le by lia. rewrite startswith_app_long; [done|].
    rewrite length_drop. lia.
  - intros k Hk. rewrite drop_app_le by lia.
    rewrite startswith_app_long; [by apply Hmin|].
    rewrite length_drop. lia.
Qed.

(** ** More on the extraction *)

(** Cropping at the first "SQLResult:" leaves no marker. *)
Lemma crop_has_no_result_marker (response : pystr) :
  find (py "SQLResult:")
    (match find (py "SQLResult:") response with
     | Some j => take j response
     | None => response
     end) = None.
Proof.
  destruct (find (py "SQLResult:") response) as [j|] eqn:Hr; [|done].
  by apply (find_take_None (py "SQLResult:") response j).
Qed.

Lemma strip_ends (s : pystr) :
  from_option (λ c, isspace c = false) True (head (strip s))
  ∧ from_option (λ c, isspace c = false) True (last (strip s)).
Proof.
  unfold strip. destruct (strip_by_ends isspace s) as [Hhead Hlast]. split.
  - destruct (head (strip_by isspace s)) as [c|]; [by apply Hhead | done].
  - destruct (last (strip_by isspace s)) as [c|]; [by apply Hlast | done].
Qed.

Lemma legacy_extraction_has_no_result_marker (response : pystr) :
  find (py "SQLResult:")
    (NLStructStoreQueryEngine._parse_response_to_sql response) = None.
Proof.
  unfold NLStructStoreQueryEngine._parse_response_to_sql, strip, slice_to.
  apply find_None_strip_by, crop_has_no_result_marker.
Qed.

Lemma base_extraction_has_no_result_marker (response : pystr)
    (query_bundle : QueryBundle) :
  find (py "SQLResult:") (Base._parse_response_to_sql response query_bundle)
  = None.
Proof.
  unfold Base._parse_response_to_sql, strip, strip_chars, slice_to.
  do 3 apply find_None_strip_by. apply crop_has_no_result_marker.
Qed.

(** X1. Whatever the completion, the statement the orchestrator extracts
    holds no "SQLResult:" marker: the result the model may have made up
    after the statement never reaches the database. *)
Theorem X1_extraction_has_no_result_marker (response : pystr)
    (query_bundle : QueryBundle) :
  find (py "SQLResult:") (Base._parse_response_to_sql response query_bundle)
  = None.
Proof. apply base_extraction_has_no_result_marker. Qed.

(** X2. The extracted statement is trimmed: it is empty, or its first and
    its last character are not whitespace. *)
Theorem X2_extraction_is_trimmed (response : pystr) (query_bundle : QueryBundle) :
  let sql := Base._parse_response_to_sql response query_bundle in
  from_option (λ c, isspace c = false) True (head sql)
  ∧ from_option (λ c, isspace c = false) True (last sql)
  ∧ strip sql = sql.
Proof.
  intros sql. unfold sql, Base._parse_response_to_sql.
  match goal with |- context [strip (strip_chars ?f ?x)] =>
    generalize (strip_chars f x) end.
  intros s. destruct (strip_ends s) as [Hhead Hlast].
  split; [done|]. split; [done|]. apply strip_by_idemp.
Qed.

(** X3. What precedes the first "SQLQuery:" label plays no part: the
    extraction gives the same statement on the completion cut at the
    label, whatever came before it (an earlier statement or an earlier
    "SQLResult:" included). *)
Theorem X3_extraction_ignores_text_before_label (response : pystr)
    (query_bundle : QueryBundle) (i : nat) :
  find (py "SQLQuery:") response = Some i →
  Base._parse_response_to_sql response query_bundle
  = Base._parse_response_to_sql (drop i response) query_bundle.
Proof.
  intros Hq. destruct (find_Some _ _ _ Hq) as [Hat _].
  unfold Base._parse_response_to_sql, slice_from. rewrite Hq, Hat.
  by rewrite (find_at_start _ _ Hat), drop_0, Hat.
Qed.

Lemma X3_witness :
  Base._parse_response_to_sql
    (py "SELECT 0 SQLResult: none. SQLQuery: SELECT 1") Example.question
  = Base._parse_response_to_sql (py "SQLQuery: SELECT 1") Example.question.
Proof.
  apply (X3_extraction_ignores_text_before_label
           (py "SELECT 0 SQLResult: none. SQLQuery: SELECT 1")
           Example.question 26).
  reflexivity.
Defined.

(** X4. Once the completion holds the label and, after it, the result
    marker, nothing appended to it changes the extracted statement. *)
Theorem X4_extraction_ignores_text_after_result (response more : pystr)
    (query_bundle : QueryBundle) (i j : nat) :
  find (py "SQLQuery:") response = Some i →
  find (py "SQLResult:") (drop (i + 9) response) = Some j →
  Base._parse_response_to_sql (response ++ more) query_bundle
  = Base._parse_response_to_sql response query_bundle.
Proof.
  intros Hq Hr.
  assert (Hroom : i + 9 ≤ length response)
    by apply (find_Some_room _ _ _ Hq).
  rewrite (parse_response_between response query_bundle i j Hq Hr).
  rewrite (parse_response_between (response ++ more) query_bundle i j).
  - rewrite drop_app_le by done.
    by rewrite take_app_le by (by apply find_Some_le in Hr).
  - by apply find_app_l.
  - rewrite drop_app_le by done. by apply find_app_l.
Qed.

Lemma X4_witness :
  Base._parse_response_to_sql
    (Example.completion ++ py " rows. SQLQuery: DROP TABLE orders")
    Example.question
  = Base._parse_response_to_sql Example.completion Example.question.
Proof.
  apply (X4_extraction_ignores_text_after_result Example.completion
           (py " rows. SQLQuery: DROP TABLE orders") Example.question 0 29);
    reflexivity.
Defined.

(** X5. A completion that is already a clean statement (no label, no
    result marker, neither whitespace nor a backtick at either end) is
    returned as it is. *)
Theorem X5_extraction_keeps_clean_statement (response : pystr)
    (query_bundle : QueryBundle) :
  let clean_end (c : pychar) := isspace c = false ∧ c ≠ 96%N in
  find (py "SQLQuery:") response = None →
  find (py "SQLResult:") response = None →
  from_option clean_end True (head response) →
  from_option clean_end True (last response) →
  Base._parse_response_to_sql response query_bundle = response.
Proof.
  intros clean_end Hq Hr Hhead Hlast.
  rewrite parse_response_no_label by done. rewrite Hr.
  assert (Hstrip : strip response = response).
  { apply strip_by_fixed; intros c Hc.
    - rewrite Hc in Hhead. apply Hhead.
    - rewrite Hc in Hlast. apply Hlast. }
  assert (Hticks : strip_chars (py "```") response = response).
  { assert (Htick : ∀ c, c ≠ 96%N → char_in (py "```") c = false).
    { intros c Hc. apply N.eqb_neq in Hc. unfold char_in.
      change (py "```") with [96; 96; 96]%N. simpl. by rewrite Hc. }
    apply strip_by_fixed; intros c Hc; apply Htick.
    - rewrite Hc in Hhead. apply Hhead.
    - rewrite Hc in Hlast. apply Hlast. }
  by rewrite Hstrip, Hticks, Hstrip.
Qed.

Lemma X5_witness :
  Base._parse_response_to_sql Example.statement Example.question
  = Example.statement.
Proof.
  apply (X5_extraction_keeps_clean_statement Example.statement Example.question);
    [reflexivity | reflexivity | simpl; split; [reflexivity | discriminate]
    | simpl; split; [reflexivity | discriminate]].
Defined.

(** X6. The legacy extraction returns a trimmed text without any
    "SQLResult:" marker. *)
Theorem X6_legacy_extraction_is_cropped_and_trimmed (response : pystr) :
  let sql := NLStructStoreQueryEngine._parse_response_to_sql response in
  find (py "SQLResult:") sql = None
  ∧ from_option (λ c, isspace c = false) True (head sql)
  ∧ from_option (λ c, isspace c = false) True (last sql).
Proof.
  intros sql. split; [apply legacy_extraction_has_no_result_marker|].
  apply strip_ends.
Qed.

(** X7. The legacy extraction is idempotent: applied to its own output it
    changes nothing. *)
Theorem X7_legacy_extraction_idempotent (response : pystr) :
  NLStructStoreQueryEngine._parse_response_to_sql
    (NLStructStoreQueryEngine._parse_response_to_sql response)
  = NLStructStoreQueryEngine._parse_response_to_sql response.
Proof.
  pose proof (legacy_extraction_has_no_result_marker response) as Hnone.
  unfold NLStructStoreQueryEngine._parse_response_to_sql at 1.
  rewrite Hnone.
  unfold NLStructStoreQueryEngine._parse_response_to_sql, strip.
  apply strip_by_idemp.
Qed.

(** X8. In the legacy extraction everything from the first "SQLResult:" on
    is dropped: text appended to a completion that holds the marker does
    not change the statement. *)
Theorem X8_legacy_extraction_ignores_text_after_result (response more : pystr)
    (j : nat) :
  find (py "SQLResult:") response = Some j →
  NLStructStoreQueryEngine._parse_response_to_sql (response ++ more)
  = NLStructStoreQueryEngine._parse_response_to_sql response.
Proof.
  intros Hr. unfold NLStructStoreQueryEngine._parse_response_to_sql, slice_to.
  rewrite (find_app_l _ _ more _ Hr), Hr.
  by rewrite take_app_le by (by apply find_Some_le in Hr).
Qed.

Lemma X8_witness :
  NLStructStoreQueryEngine._parse_response_to_sql
    (py "SELECT 1 SQLResult: 1" ++ py " SQLQuery: DROP TABLE orders")
  = NLStructStoreQueryEngine._parse_response_to_sql (py "SELECT 1 SQLResult: 1").
Proof.
  apply (X8_legacy_extraction_ignores_text_after_result
           (py "SELECT 1 SQLResult: 1") (py " SQLQuery: DROP TABLE orders") 9).
  reflexivity.
Defined.

(** ** Failing stages *)

Section Failures.
Context {E : Type} `{!SQLTableQueryEngine E}.
Implicit Types (self : E) (query_bundle : QueryBundle).

(** X9. When the context provider raises, the query raises the same
    exception and none of the later stages is entered: no generation call,
    no embedding request, no statement executed, no synthesis call.  (The
    schema look-ups the provider made before raising are not part of the
    trace.) *)
Theorem X9_context_failure_aborts_query (async : bool) self query_bundle
    (e : exception) :
  _get_table_context self query_bundle = Err e →
  run_query async self query_bundle = ([], Err e).
Proof.
  intros Hctx. unfold run_query, _query, _aquery, mbind, M_bind, lift.
  rewrite Hctx. by destruct async.
Qed.

(** X10. When the generation call raises, the query raises the same
    exception; of the calls of the generation, execution and synthesis
    stages the generation call is the only one made: no statement is
    executed and nothing is synthesized. *)
Theorem X10_generation_failure_aborts_query (async : bool) self query_bundle
    (table_desc_str : pystr) (e : exception) :
  _get_table_context self query_bundle = Ok table_desc_str →
  (if async then apredict else predict)
    (Base._service_context (super self)) (Base._text_to_sql_prompt (super self))
    (text_to_sql_bindings self query_bundle table_desc_str) = Err e →
  run_query async self query_bundle
  = ([Predict async (Base._text_to_sql_prompt (super self))
              (text_to_sql_bindings self query_bundle table_desc_str)],
     Err e).
Proof.
  intros Hctx Hllm. unfold text_to_sql_bindings in *.
  unfold run_query, _query, _aquery, mbind, M_bind, lift, call.
  rewrite Hctx. destruct async; by rewrite Hllm.
Qed.

(** X11. When the execution raises, the query raises the same exception
    and the execution is its last call: no synthesis is attempted, whether
    enabled or not. *)
Theorem X11_execution_failure_aborts_query (async : bool) self query_bundle
    (table_desc_str response_str : pystr) (pre : list event) (sql : pystr)
    (e : exception) :
  _get_table_context self query_bundle = Ok table_desc_str →
  (if async then apredict else predict)
    (Base._service_context (super self)) (Base._text_to_sql_prompt (super self))
    (text_to_sql_bindings self query_bundle table_desc_str) = Ok response_str →
  _parse_response_to_sql self response_str query_bundle = (pre, Ok sql) →
  run_sql (Base._sql_database (super self)) sql = Err e →
  run_query async self query_bundle
  = (Predict async (Base._text_to_sql_prompt (super self))
             (text_to_sql_bindings self query_bundle table_desc_str)
       :: pre ++ [RunSql sql],
     Err e).
Proof.
  intros Hctx Hllm Hparse Hrun. unfold text_to_sql_bindings in *.
  unfold run_query, _query, _aquery, mbind, M_bind, lift, call.
  rewrite Hctx. destruct async; by rewrite Hllm, Hparse, Hrun.
Qed.

(** X12. With synthesis enabled, when the synthesizer raises, or returns
    a response without a metadata mapping (on which the update fails), the
    query raises although the statement has been executed: the caller gets
    neither the raw result nor the execution metadata. *)
Theorem X12_synthesis_failure_loses_result (async : bool) self query_bundle
    (table_desc_str response_str : pystr) (pre : list event) (sql raw : pystr)
    (emd : gmap pystr pyval) :
  let answer :=
    (if async then asynthesize else synthesize)
      (get_response_synthesizer (Base._service_context (super self))
                                (synthesis_prompt self sql))
      (query_str query_bundle) [raw] in
  let trace :=
    Predict async (Base._text_to_sql_prompt (super self))
            (text_to_sql_bindings self query_bundle table_desc_str)
    :: pre ++ [RunSql sql;
               Synthesize async (synthesis_prompt self sql)
                          (query_str query_bundle) [raw]] in
  Base._synthesize_response (super self) = true →
  stages_done async self query_bundle table_desc_str response_str pre sql raw emd →
  (∀ e, answer = Err e → run_query async self query_bundle = (trace, Err e))
  ∧ (∀ r, answer = Ok r → Response.metadata r = None →
          run_query async self query_bundle = (trace, Err AttributeError)).
Proof.
  intros answer trace Hflag (Hctx & Hllm & Hparse & Hrun).
  unfold answer, trace, synthesis_prompt, text_to_sql_bindings,
    get_response_synthesizer in *.
  unfold run_query, _query, _aquery, mbind, M_bind, lift, call,
    get_response_synthesizer.
  rewrite Hctx.
  split.
  - intros e Hsyn. destruct async;
      by rewrite Hllm, Hparse, Hrun, Hflag, Hsyn.
  - intros r Hsyn Hmd. destruct async;
      by rewrite Hllm, Hparse, Hrun, Hflag, Hsyn, Hmd.
Qed.

End Failures.

Lemma X9_witness :
  run_query false
    (Example.engine_on Example.database Example.context true
       (Some [TOther 3])) Example.question
  = ([], Err (ValueError (UnknownTableType (TOther 3)))).
Proof.
  by apply (X9_context_failure_aborts_query false
              (Example.engine_on Example.database Example.context true
                 (Some [TOther 3])) Example.question).
Defined.

Lemma X10_witness :
  let self :=
    Example.engine_on Example.database Example.failing_predictor_context
      true None in
  run_query true self Example.question
  = ([Predict true (Base._text_to_sql_prompt (super self))
              (text_to_sql_bindings self Example.question
                 (py "Table orders has columns: id (INTEGER)" ++ [10; 10]%N
                  ++ py "Table customers has columns: id (INTEGER)"))],
     Err (CollaboratorError 1)).
Proof.
  intros self.
  by apply (X10_generation_failure_aborts_query true self Example.question).
Defined.

Lemma X11_witness :
  let self :=
    Example.engine_on Example.failing_database Example.context true None in
  run_query false self Example.question
  = (Predict false (Base._text_to_sql_prompt (super self))
             (text_to_sql_bindings self Example.question
                (py "Table orders has columns: id (INTEGER)" ++ [10; 10]%N
                 ++ py "Table customers has columns: id (INTEGER)"))
       :: [] ++ [RunSql Example.statement],
     Err (CollaboratorError 2)).
Proof.
  intros self.
  by apply (X11_execution_failure_aborts_query false self Example.question
              _ Example.completion).
Defined.

Lemma X12_witness :
  let failing :=
    Example.engine_on Example.database Example.failing_synthesizer_context
      true None in
  let bare :=
    Example.engine_on Example.database Example.bare_synthesizer_context
      true None in
  outcome (run_query false failing Example.question) = Err (CollaboratorError 3)
  ∧ outcome (run_query true bare Example.question) = Err AttributeError.
Proof.
  intros failing bare. split.
  - destruct (X12_synthesis_failure_loses_result false failing Example.question
        (py "Table orders has columns: id (INTEGER)" ++ [10; 10]%N
         ++ py "Table customers has columns: id (INTEGER)")
        Example.completion [] Example.statement (py "[(5,)]")
        {[ py "result" := VObj 1 ]}) as [Hraise _]; [done | done |].
    by rewrite (Hraise (CollaboratorError 3)).
  - destruct (X12_synthesis_failure_loses_result true bare Example.question
        (py "Table orders has columns: id (INTEGER)" ++ [10; 10]%N
         ++ py "Table customers has columns: id (INTEGER)")
        Example.completion [] Example.statement (py "[(5,)]")
        {[ py "result" := VObj 1 ]}) as [_ Hbare]; [done | done |].
    by rewrite (Hbare (Response.mk (Some (py "There are 5 orders."))
                         [py "[(5,)]"] None)).
Defined.

(** ** The two paths, and the order of the stages *)

(** X13. The asynchronous path computes what the synchronous one does:
    when the asynchronous calls of the predictor and of the synthesizer
    answer as their synchronous counterparts, [_aquery] and [_query] end
    with the same response or the same exception. *)
Theorem X13_async_agrees_with_sync {E : Type} `{!SQLTableQueryEngine E}
    (self : E) (query_bundle : QueryBundle) :
  let llm := Base._service_context (super self) in
  (∀ prompt bindings, apredict llm prompt bindings = predict llm prompt bindings) →
  (∀ tmpl query nodes,
     asynthesize (get_response_synthesizer llm tmpl) query nodes
     = synthesize (get_response_synthesizer llm tmpl) query nodes) →
  outcome (_aquery self query_bundle) = outcome (_query self query_bundle).
Proof.
  intros llm Hpredict Hsynth. unfold llm in *.
  unfold _query, _aquery, outcome, mbind, M_bind, call, lift.
  destruct (_get_table_context self query_bundle); [|done].
  rewrite Hpredict. destruct (predict _ _ _) as [response_str|]; [|done].
  destruct (_parse_response_to_sql self response_str query_bundle)
    as [pre [sql|]]; [|done].
  destruct (run_sql _ sql) as [[raw emd]|]; [|done].
  destruct (Base._synthesize_response (super self)); [|done].
  rewrite Hsynth. destruct (synthesize _ _ _) as [r|]; [|done].
  by destruct (metadata_update _ _).
Qed.

Lemma X13_witness :
  outcome (_aquery (Example.nl_engine true None) Example.question)
  = outcome (_query (Example.nl_engine true None) Example.question).
Proof.
  by apply (X13_async_agrees_with_sync (Example.nl_engine true None)
              Example.question).
Defined.

(** The stages of a run, for an engine whose extraction always makes
    calls of the stages [extraction_stages]. *)
Lemma run_query_stage_order {E : Type} `{!SQLTableQueryEngine E}
    (extraction_stages : list stage) (async : bool) (self : E)
    (query_bundle : QueryBundle) :
  (∀ response_str,
     stage_of <$> calls (_parse_response_to_sql self response_str query_bundle)
     = extraction_stages) →
  (stage_of <$> calls (run_query async self query_bundle))
  `prefix_of`
  Generation :: extraction_stages
    ++ Execution :: (if Base._synthesize_response (super self)
                     then [Synthesis] else []).
Proof.
  intros Hextraction. unfold run_query. destruct async.
  - unfold _aquery, calls, mbind, M_bind, call, lift.
    destruct (_get_table_context self query_bundle); [|apply prefix_nil].
    destruct (apredict _ _ _) as [response_str|];
      [|apply prefix_cons, prefix_nil].
    specialize (Hextraction response_str). unfold calls in Hextraction.
    destruct (_parse_response_to_sql self response_str query_bundle)
      as [pre [sql|]]; simpl in Hextraction; subst extraction_stages.
    + destruct (run_sql _ sql) as [[raw emd]|].
      * destruct (Base._synthesize_response (super self)).
        -- destruct (asynthesize _ _ _) as [r|].
           ++ destruct (metadata_update _ _); simpl; by rewrite fmap_app.
           ++ simpl. by rewrite fmap_app.
        -- simpl. by rewrite fmap_app.
      * simpl. rewrite fmap_app. apply prefix_cons, prefix_app.
        apply prefix_cons, prefix_nil.
    + simpl. apply prefix_cons, prefix_app_r. done.
  - unfold _query, calls, mbind, M_bind, call, lift.
    destruct (_get_table_context self query_bundle); [|apply prefix_nil].
    destruct (predict _ _ _) as [response_str|];
      [|apply prefix_cons, prefix_nil].
    specialize (Hextraction response_str). unfold calls in Hextraction.
    destruct (_parse_response_to_sql self response_str query_bundle)
      as [pre [sql|]]; simpl in Hextraction; subst extraction_stages.
    + destruct (run_sql _ sql) as [[raw emd]|].
      * destruct (Base._synthesize_response (super self)).
        -- destruct (synthesize _ _ _) as [r|].
           ++ destruct (metadata_update _ _); simpl; by rewrite fmap_app.
           ++ simpl. by rewrite fmap_app.
        -- simpl. by rewrite fmap_app.
      * simpl. rewrite fmap_app. apply prefix_cons, prefix_app.
        apply prefix_cons, prefix_nil.
    + simpl. apply prefix_cons, prefix_app_r. done.
Qed.

(** X14. In every run, completed or not, on either path, the stages come
    in the order generation, execution, synthesis, each at most once (with
    the embedding call between generation and execution for the
    vector-aware engine); with synthesis disabled no synthesis call is ever
    made. *)
Theorem X14_stages_run_in_order_at_most_once (async : bool)
    (query_bundle : QueryBundle) :
  let expected (synthesize_response : bool) (extraction : list stage) :=
    Generation :: extraction
      ++ Execution :: (if synthesize_response then [Synthesis] else []) in
  (∀ self : NLSQLTableQueryEngine.t,
     (stage_of <$> calls (run_query async self query_bundle))
     `prefix_of` expected (Base._synthesize_response (super self)) [])
  ∧ (∀ self : SQLTableRetrieverQueryEngine.t,
       (stage_of <$> calls (run_query async self query_bundle))
       `prefix_of` expected (Base._synthesize_response (super self)) [])
  ∧ (∀ self : PGVectorSQLQueryEngine.t,
       (stage_of <$> calls (run_query async self query_bundle))
       `prefix_of` expected (Base._synthesize_response (super self)) [Embedding]).
Proof.
  intros expected. unfold expected.
  split; [|split]; intros self; by apply run_query_stage_order.
Qed.

(** Going through a trace for its execution call. *)
Ltac pick_execution :=
  simpl; intros Hin;
  repeat (apply elem_of_cons in Hin as [Hin|Hin];
          [first [discriminate Hin
                 | injection Hin as ->; first [done | by eexists]]|]);
  by apply elem_of_nil in Hin.



(** ** The legacy engines *)

(** X16. Every response the legacy natural-language engine returns, on
    either path, carries the executed statement under "sql_query" next to
    the entries of the execution metadata; that statement is the legacy
    extraction of the completion the predictor gave for the text-to-SQL
    prompt, and it was submitted for execution. *)
Theorem X16_legacy_metadata_carries_executed_sql (async : bool)
    (self : NLStructStoreQueryEngine.t) (query_bundle : QueryBundle)
    (tr : list event) (resp : Response.t) :
  (if async then NLStructStoreQueryEngine._aquery self query_bundle
   else NLStructStoreQueryEngine._query self query_bundle) = (tr, Ok resp) →
  ∃ (table_desc_str completion raw : pystr) (metadata : gmap pystr pyval),
    let sql := NLStructStoreQueryEngine._parse_response_to_sql completion in
    NLStructStoreQueryEngine._get_table_context self query_bundle
    = Ok table_desc_str
    ∧ (if async then apredict else predict)
        (NLStructStoreQueryEngine._service_context self)
        (NLStructStoreQueryEngine._text_to_sql_prompt self)
        [(py "query_str", query_str query_bundle);
         (py "schema", table_desc_str);
         (py "dialect", dialect (NLStructStoreQueryEngine._sql_database self))]
      = Ok completion
    ∧ RunSql sql ∈ tr
    ∧ run_sql (NLStructStoreQueryEngine._sql_database self) sql
      = Ok (raw, metadata)
    ∧ Response.metadata resp = Some (<[py "sql_query" := VStr sql]> metadata).
Proof.
  destruct async.
  - unfold NLStructStoreQueryEngine._aquery, mbind, M_bind, call, lift.
    destruct (NLStructStoreQueryEngine._get_table_context _ _)
      as [table_desc_str|]; [|done].
    destruct (apredict _ _ _) as [completion|] eqn:Hllm; [|done].
    destruct (run_sql _ _) as [[raw metadata]|] eqn:Hrun; [|done].
    simpl. intros [= <- <-]. exists table_desc_str, completion, raw, metadata.
    split; [done|]. split; [done|]. split; [set_solver | done].
  - unfold NLStructStoreQueryEngine._query, mbind, M_bind, call, lift.
    destruct (NLStructStoreQueryEngine._get_table_context _ _)
      as [table_desc_str|]; [|done].
    destruct (predict _ _ _) as [completion|] eqn:Hllm; [|done].
    destruct (run_sql _ _) as [[raw metadata]|] eqn:Hrun; [|done].
    destruct (NLStructStoreQueryEngine._synthesize_response self).
    + destruct (predict _ _ [_; (py "sql_query", _); _]) as [reworded|]; [|done].
      simpl. intros [= <- <-]. exists table_desc_str, completion, raw, metadata.
      split; [done|]. split; [done|]. split; [set_solver | done].
    + simpl. intros [= <- <-]. exists table_desc_str, completion, raw, metadata.
      split; [done|]. split; [done|]. split; [set_solver | done].
Qed.

Lemma X16_witness :
  let self := Example.legacy_engine true in
  ∃ (table_desc_str completion raw : pystr) (metadata : gmap pystr pyval),
    let sql := NLStructStoreQueryEngine._parse_response_to_sql completion in
    NLStructStoreQueryEngine._get_table_context self Example.question
    = Ok table_desc_str
    ∧ (if false then apredict else predict)
        (NLStructStoreQueryEngine._service_context self)
        (NLStructStoreQueryEngine._text_to_sql_prompt self)
        [(py "query_str", query_str Example.question);
         (py "schema", table_desc_str);
         (py "dialect", dialect (NLStructStoreQueryEngine._sql_database self))]
      = Ok completion
    ∧ RunSql sql ∈ (NLStructStoreQueryEngine._query self Example.question).1
    ∧ run_sql (NLStructStoreQueryEngine._sql_database self) sql
      = Ok (raw, metadata)
    ∧ Some ({[ py "sql_query" := VStr (py "SQLQuery: SELECT COUNT(*) FROM orders");
               py "result" := VObj 1 ]} : gmap pystr pyval)
      = Some (<[py "sql_query" := VStr sql]> metadata).
Proof.
  intros self.
  apply (X16_legacy_metadata_carries_executed_sql false self Example.question
           (NLStructStoreQueryEngine._query self Example.question).1
           (Response.mk (Some (py "There are 5 orders.")) []
              (Some {[ py "sql_query" := VStr (py "SQLQuery: SELECT COUNT(*) FROM orders");
                       py "result" := VObj 1 ]}))).
  vm_compute. reflexivity.
Defined.

(** X17. A legacy engine whose index holds neither a context string nor a
    context dictionary fails every query with the ValueError of the
    context stage, before any call to the model or the database. *)
Theorem X17_legacy_query_without_context_fails
    (self : NLStructStoreQueryEngine.t) (query_bundle : QueryBundle) :
  container_context_str (NLStructStoreQueryEngine._sql_context_container self)
  = None →
  context_dict (NLStructStoreQueryEngine._sql_context_container self) = None →
  NLStructStoreQueryEngine._query self query_bundle
  = ([], Err (ValueError NoContextDict))
  ∧ NLStructStoreQueryEngine._aquery self query_bundle
    = ([], Err (ValueError NoContextDict)).
Proof.
  intros Hstr Hdict.
  unfold NLStructStoreQueryEngine._query, NLStructStoreQueryEngine._aquery,
    NLStructStoreQueryEngine._get_table_context, mbind, M_bind, lift.
  by rewrite Hstr, Hdict.
Qed.

Lemma X17_witness :
  NLStructStoreQueryEngine._query Example.legacy_engine_without_context
    Example.question
  = ([], Err (ValueError NoContextDict))
  ∧ NLStructStoreQueryEngine._aquery Example.legacy_engine_without_context
      Example.question
    = ([], Err (ValueError NoContextDict)).
Proof.
  by apply (X17_legacy_query_without_context_fails
              Example.legacy_engine_without_context Example.question).
Defined.

(** X18. With synthesis disabled the two paths of the legacy engine agree:
    when the asynchronous predictor answers as the synchronous one, they
    end with the same response or the same exception. *)
Theorem X18_legacy_paths_agree_without_synthesis
    (self : NLStructStoreQueryEngine.t) (query_bundle : QueryBundle) :
  let llm := NLStructStoreQueryEngine._service_context self in
  NLStructStoreQueryEngine._synthesize_response self = false →
  (∀ prompt bindings, apredict llm prompt bindings = predict llm prompt bindings) →
  outcome (NLStructStoreQueryEngine._aquery self query_bundle)
  = outcome (NLStructStoreQueryEngine._query self query_bundle).
Proof.
  intros llm Hflag Hpredict. unfold llm in *.
  unfold NLStructStoreQueryEngine._query, NLStructStoreQueryEngine._aquery,
    outcome, mbind, M_bind, call, lift.
  destruct (NLStructStoreQueryEngine._get_table_context _ _); [|done].
  rewrite Hpredict. destruct (predict _ _ _) as [completion|]; [|done].
  destruct (run_sql _ _) as [[raw metadata]|]; [|done].
  by rewrite Hflag.
Qed.

Lemma X18_witness :
  outcome (NLStructStoreQueryEngine._aquery (Example.legacy_engine false)
             Example.question)
  = outcome (NLStructStoreQueryEngine._query (Example.legacy_engine false)
               Example.question).
Proof.
  by apply (X18_legacy_paths_agree_without_synthesis
              (Example.legacy_engine false) Example.question).
Defined.



(** ** More on the context providers and the constructors *)

(** A table list is made of name strings only, or has a first entry that
    is not a name string. *)
Lemma table_entries_split (tables : list table_entry) :
  (∃ names, tables = TStr <$> names)
  ∨ (∃ names bad rest,
       tables = (TStr <$> names) ++ bad :: rest ∧ ∀ s, bad ≠ TStr s).
Proof.
  induction tables as [|entry tables IH]; [left; by exists []|].
  destruct entry as [s|tbl|id].
  - destruct IH as [[names ->]|(names & bad & rest & -> & Hbad)].
    + left. by exists (s :: names).
    + right. by exists (s :: names), bad, rest.
  - right. by exists [], (TTable tbl), tables.
  - right. by exists [], (TOther id), tables.
Qed.

(** X20. Given a non-empty table list, the fixed-list provider returns a
    context exactly when every entry is a name string; otherwise it raises
    the ValueError for the first entry that is not one, whatever follows
    it, and returns nothing of what it had gathered. *)
Theorem X20_fixed_list_accepts_name_strings_only
    (engine : BaseSQLTableQueryEngine.t) (first : table_entry)
    (others : list table_entry) (query_bundle : QueryBundle) :
  let tables := first :: others in
  let context :=
    NLSQLTableQueryEngine._get_table_context
      {| NLSQLTableQueryEngine.base := engine;
         NLSQLTableQueryEngine._tables := Some tables |} query_bundle in
  (∃ names,
     tables = TStr <$> names
     ∧ context
       = Ok (join [10; 10]%N
               (NLSQLTableQueryEngine.table_info_with_context
                  (Base._sql_database engine) (Base._context_query_kwargs engine)
                <$> names)))
  ∨ (∃ names bad rest,
       tables = (TStr <$> names) ++ bad :: rest
       ∧ (∀ s, bad ≠ TStr s)
       ∧ context = Err (ValueError (UnknownTableType bad))).
Proof.
  intros tables context. unfold context, tables.
  unfold NLSQLTableQueryEngine._get_table_context.
  cbn [NLSQLTableQueryEngine._tables NLSQLTableQueryEngine.truthy_tables or_default].
  destruct (table_entries_split (first :: others))
    as [[names ->]|(names & bad & rest & -> & Hbad)].
  - left. exists names. split; [done|]. by rewrite tables_loop_names.
  - right. exists names, bad, rest. split; [done|]. split; [done|].
    by rewrite tables_loop_rejects.
Qed.

Lemma schema_loop_descriptions (self : SQLTableRetrieverQueryEngine.t)
    (table_schema_objs : list SQLTableSchema) (context_strs : list pystr) :
  SQLTableRetrieverQueryEngine.schema_loop self table_schema_objs context_strs
  = context_strs
    ++ ((λ obj,
           let table_info :=
             get_single_table_info
               (Base._sql_database (SQLTableRetrieverQueryEngine.base self))
               (table_name obj) in
           match context_str obj with
           | Some (c :: description) =>
               table_info ++ py " The table description is: " ++ c :: description
           | _ => table_info
           end) <$> table_schema_objs).
Proof.
  revert context_strs.
  induction table_schema_objs as [|obj objs IH]; intros acc; simpl.
  - by rewrite app_nil_r.
  - rewrite IH, <- app_assoc. do 2 f_equal.
    by destruct (context_str obj) as [[|c d]|].
Qed.

(** X21. The retriever variant returns the configured prefix, when there
    is one, followed by one description per retrieved table in the order
    retrieved, joined by blank lines; a table's description is annotated
    only when its descriptor holds a non-empty context string. *)
Theorem X21_retriever_context_keeps_retrieved_order
    (self : SQLTableRetrieverQueryEngine.t) (query_bundle : QueryBundle) :
  let describe (obj : SQLTableSchema) :=
    let table_info :=
      get_single_table_info
        (Base._sql_database (SQLTableRetrieverQueryEngine.base self))
        (table_name obj) in
    match context_str obj with
    | Some (c :: description) =>
        table_info ++ py " The table description is: " ++ c :: description
    | _ => table_info
    end in
  SQLTableRetrieverQueryEngine._get_table_context self query_bundle
  = Ok (join [10; 10]%N
          (match SQLTableRetrieverQueryEngine._context_str_prefix self with
           | Some prefix => [prefix]
           | None => []
           end
           ++ (describe <$> retrieve
                 (SQLTableRetrieverQueryEngine._table_retriever self)
                 query_bundle))).
Proof.
  intros describe. unfold SQLTableRetrieverQueryEngine._get_table_context.
  by rewrite schema_loop_descriptions.
Qed.

(** X22. The constructor of the vector-aware engine does not hand its
    [tables] argument on to the parent class, whose constructor sets the
    attribute again: the engine it returns has no table list, and describes
    every usable table of the database whatever [tables] was. *)
Theorem X22_pgvector_constructor_drops_tables
    (default_prompt pgvector_prompt : BasePromptTemplate)
    (default_context : ServiceContext) (sql_database : SQLDatabase)
    (text_to_sql_prompt : option BasePromptTemplate)
    (context_query_kwargs : option (gmap pystr pystr))
    (synthesize_response : bool)
    (response_synthesis_prompt : option BasePromptTemplate)
    (tables : option (list table_entry))
    (service_context : option ServiceContext)
    (self : PGVectorSQLQueryEngine.t) (query_bundle : QueryBundle) :
  PGVectorSQLQueryEngine.__init__ default_prompt pgvector_prompt default_context
    sql_database text_to_sql_prompt context_query_kwargs synthesize_response
    response_synthesis_prompt tables service_context = Ok self →
  NLSQLTableQueryEngine._tables (PGVectorSQLQueryEngine.nlsql self) = None
  ∧ _get_table_context self query_bundle
    = Ok (join [10; 10]%N
            (NLSQLTableQueryEngine.table_info_with_context sql_database
               (or_default context_query_kwargs ∅)
             <$> get_usable_table_names sql_database)).
Proof.
  unfold PGVectorSQLQueryEngine.__init__, NLSQLTableQueryEngine.__init__,
    Base.__init__, mbind, result_bind, mret, result_ret.
  destruct (_validate_prompt _); [|done]. intros [= <-].
  split; [done|].
  change (_get_table_context ?s query_bundle)
    with (NLSQLTableQueryEngine._get_table_context
            (PGVectorSQLQueryEngine.nlsql s) query_bundle).
  unfold NLSQLTableQueryEngine._get_table_context. simpl.
  by rewrite table_names_loop_names.
Qed.

Lemma X22_witness :
  ∃ self : PGVectorSQLQueryEngine.t,
    PGVectorSQLQueryEngine.__init__ Example.text_to_sql_prompt
      Example.text_to_sql_prompt Example.context Example.database
      None None false None (Some [TStr (py "orders")]) None = Ok self
    ∧ NLSQLTableQueryEngine._tables (PGVectorSQLQueryEngine.nlsql self) = None
    ∧ _get_table_context self Example.question
      = Ok (py "Table orders has columns: id (INTEGER)" ++ [10; 10]%N
            ++ py "Table customers has columns: id (INTEGER)").
Proof.
  eexists. split; [reflexivity|].
  by apply (X22_pgvector_constructor_drops_tables Example.text_to_sql_prompt
              Example.text_to_sql_prompt Example.context Example.database
              None None false None (Some [TStr (py "orders")]) None).
Defined.

(** X23. The constructor of the fixed-list engine hands on what it is
    given: an engine it returns for a list of table names describes exactly
    these tables, in the order given, annotated from the
    [context_query_kwargs] it was given (from no annotation at all when
    that argument was omitted), whatever tables the database holds. *)
Theorem X23_fixed_list_constructor_keeps_tables
    (default_prompt : BasePromptTemplate) (default_context : ServiceContext)
    (sql_database : SQLDatabase)
    (text_to_sql_prompt : option BasePromptTemplate)
    (context_query_kwargs : option (gmap pystr pystr))
    (synthesize_response : bool)
    (response_synthesis_prompt : option BasePromptTemplate)
    (first : pystr) (others : list pystr)
    (service_context : option ServiceContext)
    (self : NLSQLTableQueryEngine.t) (query_bundle : QueryBundle) :
  NLSQLTableQueryEngine.__init__ default_prompt default_context sql_database
    text_to_sql_prompt context_query_kwargs synthesize_response
    response_synthesis_prompt (Some (TStr <$> first :: others)) service_context
  = Ok self →
  _get_table_context self query_bundle
  = Ok (join [10; 10]%N
          ((λ table,
              let table_info := get_single_table_info sql_database table in
              match context_query_kwargs ≫= (.!! table) with
              | Some description =>
                  table_info ++ py " The table description is: " ++ description
              | None => table_info
              end) <$> first :: others)).
Proof.
  unfold NLSQLTableQueryEngine.__init__, Base.__init__, mbind, result_bind,
    mret, result_ret.
  destruct (_validate_prompt _); [|done]. intros [= <-].
  change (_get_table_context ?s query_bundle)
    with (NLSQLTableQueryEngine._get_table_context s query_bundle).
  unfold NLSQLTableQueryEngine._get_table_context.
  cbn [NLSQLTableQueryEngine._tables NLSQLTableQueryEngine.base
       Base._sql_database Base._context_query_kwargs].
  cbn [or_default].
  change (TStr first :: list_fmap _ _ TStr others)
    with (TStr <$> first :: others).
  replace (NLSQLTableQueryEngine.truthy_tables (Some (TStr <$> first :: others)))
    with true by done.
  rewrite tables_loop_names.
  cbn [NLSQLTableQueryEngine.base Base._sql_database Base._context_query_kwargs
       app mbind result_bind mret result_ret].
  do 2 f_equal. apply list_fmap_ext. intros _ table _.
  unfold NLSQLTableQueryEngine.table_info_with_context.
  destruct context_query_kwargs as [kw|]; [done|].
  cbn [or_default]. by rewrite lookup_empty.
Qed.

Lemma X23_witness :
  let tables := TStr <$> [py "customers"; py "orders"] in
  let self :=
    Example.engine_on Example.database Example.context false (Some tables) in
  NLSQLTableQueryEngine.__init__ Example.text_to_sql_prompt Example.context
    Example.database None None false None (Some tables) None = Ok self
  ∧ _get_table_context self Example.question
    = Ok (py "Table customers has columns: id (INTEGER)" ++ [10; 10]%N
          ++ py "Table orders has columns: id (INTEGER)").
Proof.
  intros tables self. split; [reflexivity|].
  etransitivity.
  - apply (X23_fixed_list_constructor_keeps_tables Example.text_to_sql_prompt
             Example.context Example.database None None false None
             (py "customers") [py "orders"] None).
    reflexivity.
  - vm_compute. reflexivity.
Defined.

(** ** What is synthesized, and what is executed *)

(** X24. With synthesis enabled, a run that returns ends with the
    synthesis call: the synthesizer is given the synthesis prompt with
    "sql_query" bound to the executed statement, the question, and a single
    node holding the raw execution result; the response carries the
    synthesizer's text and source nodes. *)
Theorem X24_synthesis_is_fed_the_raw_result {E : Type} `{!SQLTableQueryEngine E}
    (async : bool) (self : E) (query_bundle : QueryBundle)
    (tr : list event) (resp : Response.t) :
  Base._synthesize_response (super self) = true →
  run_query async self query_bundle = (tr, Ok resp) →
  ∃ (sql raw : pystr) (emd : gmap pystr pyval) (r : Response.t),
    let tmpl :=
      partial_format (Base._response_synthesis_prompt (super self))
                     [(py "sql_query", sql)] in
    RunSql sql ∈ tr
    ∧ run_sql (Base._sql_database (super self)) sql = Ok (raw, emd)
    ∧ last tr = Some (Synthesize async tmpl (query_str query_bundle) [raw])
    ∧ (if async then asynthesize else synthesize)
        (get_response_synthesizer (Base._service_context (super self)) tmpl)
        (query_str query_bundle) [raw] = Ok r
    ∧ Response.response resp = Response.response r
    ∧ Response.source_nodes resp = Response.source_nodes r.
Proof.
  intros Hflag Hrun. apply run_query_completed in Hrun
    as (ctx & c & pre & sql & raw & emd & (_ & _ & _ & Hexec) & Hrest).
  rewrite Hflag in Hrest. destruct Hrest as (r & smd & Hsyn & _ & -> & ->).
  exists sql, raw, emd, r. unfold synthesis_prompt in *.
  split; [set_solver|]. split; [done|]. split; [|done].
  rewrite app_comm_cons.
  change [RunSql sql; ?ev] with ([RunSql sql] ++ [ev]).
  by rewrite app_assoc, last_snoc.
Qed.

Lemma X24_witness :
  let self := Example.nl_engine true None in
  ∃ (sql raw : pystr) (emd : gmap pystr pyval) (r : Response.t),
    let tmpl :=
      partial_format (Base._response_synthesis_prompt (super self))
                     [(py "sql_query", sql)] in
    RunSql sql ∈ (run_query true self Example.question).1
    ∧ run_sql (Base._sql_database (super self)) sql = Ok (raw, emd)
    ∧ last (run_query true self Example.question).1
      = Some (Synthesize true tmpl (query_str Example.question) [raw])
    ∧ (if true then asynthesize else synthesize)
        (get_response_synthesizer (Base._service_context (super self)) tmpl)
        (query_str Example.question) [raw] = Ok r
    ∧ Response.response Example.synthesized_answer = Response.response r
    ∧ Response.source_nodes Example.synthesized_answer = Response.source_nodes r.
Proof.
  intros self.
  apply (X24_synthesis_is_fed_the_raw_result true self Example.question
           (run_query true self Example.question).1 Example.synthesized_answer).
  - reflexivity.
  - vm_compute. reflexivity.
Defined.

(** For an engine that uses the extraction of the base class, whatever is
    executed is the extraction of a completion. *)
Lemma executed_is_extracted {E : Type} `{!SQLTableQueryEngine E}
    (async : bool) (self : E) (query_bundle : QueryBundle) (sql : pystr) :
  (∀ response_str,
     _parse_response_to_sql self response_str query_bundle
     = ([], Ok (Base._parse_response_to_sql response_str query_bundle))) →
  RunSql sql ∈ calls (run_query async self query_bundle) →
  ∃ response_str, sql = Base._parse_response_to_sql response_str query_bundle.
Proof.
  intros Hparse. unfold run_query. destruct async.
  - unfold _aquery, calls, mbind, M_bind, call, lift.
    destruct (_get_table_context self query_bundle); [|pick_execution].
    destruct (apredict _ _ _) as [response_str|]; [|pick_execution].
    rewrite Hparse.
    destruct (run_sql _ _) as [[raw emd]|]; [|pick_execution].
    destruct (Base._synthesize_response (super self)); [|pick_execution].
    destruct (asynthesize _ _ _) as [r|]; [|pick_execution].
    destruct (metadata_update _ _); pick_execution.
  - unfold _query, calls, mbind, M_bind, call, lift.
    destruct (_get_table_context self query_bundle); [|pick_execution].
    destruct (predict _ _ _) as [response_str|]; [|pick_execution].
    rewrite Hparse.
    destruct (run_sql _ _) as [[raw emd]|]; [|pick_execution].
    destruct (Base._synthesize_response (super self)); [|pick_execution].
    destruct (synthesize _ _ _) as [r|]; [|pick_execution].
    destruct (metadata_update _ _); pick_execution.
Qed.

Lemma legacy_executed_is_extracted (async : bool)
    (self : NLStructStoreQueryEngine.t) (query_bundle : QueryBundle)
    (sql : pystr) :
  RunSql sql ∈ calls (if async
                      then NLStructStoreQueryEngine._aquery self query_bundle
                      else NLStructStoreQueryEngine._query self query_bundle) →
  ∃ response_str, sql = NLStructStoreQueryEngine._parse_response_to_sql response_str.
Proof.
  destruct async.
  - unfold NLStructStoreQueryEngine._aquery, calls, mbind, M_bind, call, lift.
    destruct (NLStructStoreQueryEngine._get_table_context _ _); [|pick_execution].
    destruct (apredict _ _ _) as [response_str|]; [|pick_execution].
    destruct (run_sql _ _) as [[raw emd]|]; pick_execution.
  - unfold NLStructStoreQueryEngine._query, calls, mbind, M_bind, call, lift.
    destruct (NLStructStoreQueryEngine._get_table_context _ _); [|pick_execution].
    destruct (predict _ _ _) as [response_str|]; [|pick_execution].
    destruct (run_sql _ _) as [[raw emd]|]; [|pick_execution].
    destruct (NLStructStoreQueryEngine._synthesize_response self); [|pick_execution].
    destruct (predict _ _ _); pick_execution.
Qed.

(** X25. No statement that holds a "SQLResult:" marker is ever submitted
    for execution: not by the fixed-list engine, not by the retriever
    engine, not by the legacy engine, on either path, whatever the
    collaborators answer. *)
Theorem X25_no_result_marker_is_executed (async : bool)
    (query_bundle : QueryBundle) (sql : pystr) :
  (∀ self : NLSQLTableQueryEngine.t,
     RunSql sql ∈ calls (run_query async self query_bundle) →
     find (py "SQLResult:") sql = None)
  ∧ (∀ self : SQLTableRetrieverQueryEngine.t,
       RunSql sql ∈ calls (run_query async self query_bundle) →
       find (py "SQLResult:") sql = None)
  ∧ (∀ self : NLStructStoreQueryEngine.t,
       RunSql sql ∈ calls (if async
                           then NLStructStoreQueryEngine._aquery self query_bundle
                           else NLStructStoreQueryEngine._query self query_bundle) →
       find (py "SQLResult:") sql = None).
Proof.
  split; [|split]; intros self Hin.
  - apply executed_is_extracted in Hin as [response_str ->]; [|done].
    apply base_extraction_has_no_result_marker.
  - apply executed_is_extracted in Hin as [response_str ->]; [|done].
    apply base_extraction_has_no_result_marker.
  - apply legacy_executed_is_extracted in Hin as [response_str ->].
    apply legacy_extraction_has_no_result_marker.
Qed.

Lemma X25_witness :
  find (py "SQLResult:") Example.statement = None
  ∧ find (py "SQLResult:") Example.statement = None
  ∧ find (py "SQLResult:") (py "SQLQuery: SELECT COUNT(*) FROM orders") = None.
Proof.
  split; [|split].
  - apply (proj1 (X25_no_result_marker_is_executed false Example.question
                    Example.statement) (Example.nl_engine false None)).
    vm_compute. set_solver.
  - apply (proj1 (proj2 (X25_no_result_marker_is_executed true Example.question
                    Example.statement)) Example.retriever_engine).
    vm_compute. set_solver.
  - apply (proj2 (proj2 (X25_no_result_marker_is_executed false Example.question
                    (py "SQLQuery: SELECT COUNT(*) FROM orders")))
             (Example.legacy_engine true)).
    vm_compute. set_solver.
Defined.
